(** * AstrophotoKit: the C bridge between Swift and the FITS engine

    The repository's C sources are two copies of a thin wrapper layer
    over CFITSIO:

    - [Sources/CCFITSIO/cfitsio_wrapper.c]
    - [Sources/CAstrophotoKit/cfitsio_wrapper.c]

    Every wrapper forwards its arguments to one engine primitive.  Three
    wrappers do work of their own: the pixel-read wrapper of CCFITSIO
    (narrowing of 64-bit coordinates, product of the counts), and the
    image-parameter and pixel-read wrappers of CAstrophotoKit (a fixed
    three-entry local buffer; a scalar offset and count).

    The engine primitives ([fits_open_file], [fits_read_pix], ...) are
    declared in CFITSIO's headers and are parameters of the wrappers
    below. *)

From Stdlib Require Import ZArith Lia.
From stdpp Require Import prelude strings.

Local Open Scope Z_scope.

(** ** C integer types *)

Module CInt.

(** The width of C's [long] depends on the data model: 64 bits under LP64
    (macOS, Linux), 32 bits under LLP64 and ILP32.  The comment in
    [CCFITSIO/cfitsio_wrapper.c] speaks of a 32-bit [long]; Apple's
    64-bit targets have a 64-bit one.  [LONGLONG] is 64 bits wide in
    both. *)
Inductive data_model := LP64 | LLP64.

Definition long_bits (m : data_model) : Z :=
  match m with LP64 => 64 | LLP64 => 32 end.

(** Two's-complement reduction of [x] to a signed [w]-bit integer. *)
Definition swrap (w x : Z) : Z := (x + 2 ^ (w - 1)) mod 2 ^ w - 2 ^ (w - 1).

Definition in_range (w x : Z) : Prop := - 2 ^ (w - 1) <= x < 2 ^ (w - 1).

Definition is_long (m : data_model) (x : Z) : Prop := in_range (long_bits m) x.
Definition is_longlong (x : Z) : Prop := in_range 64 x.

(** [(long)x] for a [LONGLONG] x. *)
Definition cast_long (m : data_model) (x : Z) : Z := swrap (long_bits m) x.

(** [x * y] on [long].  C leaves an overflowing signed product
    undefined; the compiled multiplication leaves the product reduced
    modulo [2^w], and that is the value taken here. *)
Definition long_mul (m : data_model) (x y : Z) : Z := swrap (long_bits m) (x * y).

(** [(long long)x] for a [long] x: widening keeps the value. *)
Definition cast_longlong (x : Z) : Z := x.

End CInt.

Import CInt.

(** Product of a list of counts. *)
Definition list_prod (l : list Z) : Z := foldr Z.mul 1 l.

(** A counted C loop [for (int i = 0; i < n; i++) body], over a state
    that a body can leave undefined (an out-of-bounds access). *)
Definition for_loop {S : Type} (n : nat) (body : nat -> S -> option S) (s : S)
  : option S :=
  foldl (fun acc i => acc ≫= body i) (Some s) (seq 0 n).

(** The fixed ceiling on the axis count: the size of the local arrays
    [firstPixelLong], [numElementsLong] and [naxes_long]. *)
Definition MAX_AXES : Z := 3.

(** ** Results of the engine primitives

    Each primitive returns an [int] and writes through its out-pointers;
    the last of them is always [int *status].  A result record holds the
    returned [int], the values written, and the final [*status]. *)

Record status_result := StatusResult {
  sr_ret : Z;
  sr_status : Z
}.

Record open_result (fitsfile : Type) := OpenResult {
  or_ret : Z;
  or_fptr : option fitsfile;
  or_status : Z
}.
Arguments OpenResult {fitsfile} _ _ _.
Arguments or_ret {fitsfile} _.
Arguments or_fptr {fitsfile} _.
Arguments or_status {fitsfile} _.

Record num_hdus_result := NumHdusResult {
  nh_ret : Z;
  nh_numhdus : Z;
  nh_status : Z
}.

Record movabs_result := MovabsResult {
  mv_ret : Z;
  mv_hdutype : Z;
  mv_status : Z
}.

Record hdrspace_result := HdrspaceResult {
  hs_ret : Z;
  hs_nexist : Z;
  hs_nmore : Z;
  hs_status : Z
}.

Record keyn_result := KeynResult {
  kn_ret : Z;
  kn_keyname : string;
  kn_value : string;
  kn_comment : string;
  kn_status : Z
}.

(** [ip_written] lists the axis lengths the engine stores into the
    [naxes] array it is handed, from index 0 on. *)
Record img_param_result := ImgParamResult {
  ip_ret : Z;
  ip_bitpix : Z;
  ip_naxis : Z;
  ip_written : list Z;
  ip_status : Z
}.

Record read_result (pixel : Type) := ReadResult {
  rd_ret : Z;
  rd_array : list pixel;
  rd_anynul : Z;
  rd_status : Z
}.
Arguments ReadResult {pixel} _ _ _ _.
Arguments rd_ret {pixel} _.
Arguments rd_array {pixel} _.
Arguments rd_anynul {pixel} _.
Arguments rd_status {pixel} _.

(** ** Array cells

    The content of a C array cell: a local array starts out
    uninitialised. *)
Inductive cval := Vundef | Vint (z : Z).

Definition cval_cast_longlong (v : cval) : cval :=
  match v with
  | Vundef => Vundef
  | Vint z => Vint (cast_longlong z)
  end.

(** The engine storing the values [vs] into an array from index [i] on;
    a store past the end of the array is undefined. *)
Fixpoint store_from (i : nat) (vs : list Z) (a : list cval)
  : option (list cval) :=
  match vs with
  | [] => Some a
  | v :: vs' =>
      if decide (i < length a)%nat
      then store_from (S i) vs' (<[i := Vint v]> a)
      else None
  end.

(** What [fits_get_img_param_wrapper] leaves behind its out-pointers. *)
Record img_param_out := ImgParamOut {
  ipo_ret : Z;
  ipo_bitpix : Z;
  ipo_naxis : Z;
  ipo_naxes : list cval;
  ipo_status : Z
}.

(** An array of [LONGLONG] cells seen as the [long]-sized slots that an
    engine writing [long] cells addresses.  Where [long] is 64 bits wide
    the slots are the cells.  Where it is 32 bits wide a cell is two
    slots, the low half first (the targets with a 32-bit [long] are
    little-endian), and a cell read back is defined once both of its
    halves are. *)
Definition split_cell (c : cval) : list cval :=
  match c with
  | Vundef => [Vundef; Vundef]
  | Vint z => [Vint (z mod 2 ^ 32); Vint ((z / 2 ^ 32) mod 2 ^ 32)]
  end.

Definition join_halves (lo hi : cval) : cval :=
  match lo, hi with
  | Vint l, Vint h => Vint (swrap 64 (l mod 2 ^ 32 + 2 ^ 32 * (h mod 2 ^ 32)))
  | _, _ => Vundef
  end.

Fixpoint join_cells (slots : list cval) : list cval :=
  match slots with
  | lo :: hi :: rest => join_halves lo hi :: join_cells rest
  | _ => []
  end.

(** The engine storing the [long] values [vs] from the start of an array
    that its owner declared as [LONGLONG] cells; a store past the end of
    the array is undefined. *)
Definition store_longs (m : data_model) (vs : list Z) (a : list cval)
  : option (list cval) :=
  match m with
  | LP64 => store_from 0 vs a
  | LLP64 => slots ← store_from 0 vs (a ≫= split_cell); Some (join_cells slots)
  end.

(** ** Sources/CCFITSIO/cfitsio_wrapper.c *)

Module CCFITSIO.

(** [int dimsToCopy = (naxis < 3) ? naxis : 3;] *)
Definition dimsToCopy (naxis : Z) : Z := if naxis <? 3 then naxis else 3.

(** The first loop of [fits_read_img_wrapper]: entries [i] of the
    caller's [LONGLONG] arrays are cast to [long] and stored into the
    local arrays.  Reading past the end of a caller's array is
    undefined. *)
Definition copy_dim (m : data_model) (firstPixel numElements : list Z)
    (i : nat) (loc : list Z * list Z) : option (list Z * list Z) :=
  fp ← firstPixel !! i;
  ne ← numElements !! i;
  Some (<[i := cast_long m fp]> loc.1, <[i := cast_long m ne]> loc.2).

(** The second loop: [totalElements *= numElementsLong[i]]. *)
Definition mul_dim (m : data_model) (numElementsLong : list Z)
    (i : nat) (totalElements : Z) : option Z :=
  ne ← numElementsLong !! i;
  Some (long_mul m totalElements ne).

(** The arguments [firstPixelLong] and [totalElements] that
    [fits_read_img_wrapper] computes for [fits_read_pix]. *)
Definition read_request (m : data_model) (naxis : Z)
    (firstPixel numElements : list Z) : option (list Z * Z) :=
  let firstPixelLong := [1; 1; 1] in
  let numElementsLong := [1; 1; 1] in
  let n := Z.to_nat (dimsToCopy naxis) in
  loc ← for_loop n (copy_dim m firstPixel numElements)
                   (firstPixelLong, numElementsLong);
  totalElements ← for_loop n (mul_dim m loc.2) 1;
  Some (loc.1, totalElements).

Section Wrappers.
Context {fitsfile St pixel : Type}.

Variable fits_open_file : string -> Z -> Z -> St -> open_result fitsfile * St.
Variable fits_close_file : fitsfile -> Z -> St -> status_result * St.
Variable fits_get_num_hdus : fitsfile -> Z -> St -> num_hdus_result * St.
Variable fits_get_errstatus : Z -> St -> string * St.
Variable fits_movabs_hdu : fitsfile -> Z -> Z -> St -> movabs_result * St.
Variable fits_get_hdrspace : fitsfile -> Z -> St -> hdrspace_result * St.
Variable fits_read_keyn : fitsfile -> Z -> Z -> St -> keyn_result * St.
Variable fits_get_img_param :
  fitsfile -> Z -> Z -> St -> img_param_result * St.
Variable fits_read_pix :
  fitsfile -> Z -> list Z -> Z -> option pixel -> Z -> St ->
  read_result pixel * St.

Definition fits_open_file_wrapper (filename : string) (mode status : Z)
  : St -> open_result fitsfile * St :=
  fits_open_file filename mode status.

Definition fits_close_file_wrapper (fptr : fitsfile) (status : Z)
  : St -> status_result * St :=
  fits_close_file fptr status.

Definition fits_get_num_hdus_wrapper (fptr : fitsfile) (status : Z)
  : St -> num_hdus_result * St :=
  fits_get_num_hdus fptr status.

Definition fits_get_errstatus_wrapper (status : Z) : St -> string * St :=
  fits_get_errstatus status.

Definition fits_movabs_hdu_wrapper (fptr : fitsfile) (hduNumber status : Z)
  : St -> movabs_result * St :=
  fits_movabs_hdu fptr hduNumber status.

Definition fits_get_hdrspace_wrapper (fptr : fitsfile) (status : Z)
  : St -> hdrspace_result * St :=
  fits_get_hdrspace fptr status.

Definition fits_read_keyn_wrapper (fptr : fitsfile) (index status : Z)
  : St -> keyn_result * St :=
  fits_read_keyn fptr index status.

(** The caller's [LONGLONG *naxes] goes to the engine as it is, and the
    engine stores [long] cells into it.  [None]: a store past the end of
    [naxes]. *)
Definition fits_get_img_param_wrapper (m : data_model) (fptr : fitsfile)
    (maxDimensions status : Z) (naxes : list cval) (st : St)
  : option (img_param_out * St) :=
  let '(r, st') := fits_get_img_param fptr maxDimensions status st in
  naxes' ← store_longs m (ip_written r) naxes;
  Some (ImgParamOut (ip_ret r) (ip_bitpix r) (ip_naxis r) naxes'
          (ip_status r), st').

(** [None]: the wrapper read past the end of [firstPixel] or
    [numElements]. *)
Definition fits_read_img_wrapper (m : data_model) (fptr : fitsfile)
    (dataType naxis : Z) (firstPixel numElements : list Z)
    (nullValue : option pixel) (status : Z) (st : St)
  : option (read_result pixel * St) :=
  req ← read_request m naxis firstPixel numElements;
  Some (fits_read_pix fptr dataType req.1 req.2 nullValue status st).

End Wrappers.

End CCFITSIO.

(** ** Sources/CAstrophotoKit/cfitsio_wrapper.c *)

Module CAstrophotoKit.

(** [long naxes_long[3];] *)
Definition naxes_long_decl : list cval := [Vundef; Vundef; Vundef].

(** [naxes[i] = (long long)naxes_long[i];] *)
Definition copy_axis (naxes_long : list cval) (i : nat) (naxes : list cval)
  : option (list cval) :=
  v ← naxes_long !! i;
  if decide (i < length naxes)%nat
  then Some (<[i := cval_cast_longlong v]> naxes)
  else None.

(** The arguments [*fpixel] and [*nelements] that
    [fits_read_img_wrapper] hands to [fits_read_img]: the first cell of
    each array. *)
Definition read_request (fpixel nelements : list Z) : option (Z * Z) :=
  firstelem ← fpixel !! 0%nat;
  nelem ← nelements !! 0%nat;
  Some (firstelem, nelem).

Section Wrappers.
Context {fitsfile St pixel : Type}.

Variable fits_open_file : string -> Z -> Z -> St -> open_result fitsfile * St.
Variable fits_close_file : fitsfile -> Z -> St -> status_result * St.
Variable fits_get_num_hdus : fitsfile -> Z -> St -> num_hdus_result * St.
Variable fits_get_errstatus : Z -> St -> string * St.
Variable fits_movabs_hdu : fitsfile -> Z -> Z -> St -> movabs_result * St.
Variable fits_get_hdrspace : fitsfile -> Z -> St -> hdrspace_result * St.
Variable fits_read_keyn : fitsfile -> Z -> Z -> St -> keyn_result * St.
Variable fits_get_img_param :
  fitsfile -> Z -> Z -> St -> img_param_result * St.
Variable fits_read_img :
  fitsfile -> Z -> Z -> Z -> option pixel -> Z -> St ->
  read_result pixel * St.

Definition fits_open_file_wrapper (filename : string) (mode status : Z)
  : St -> open_result fitsfile * St :=
  fits_open_file filename mode status.

Definition fits_close_file_wrapper (fptr : fitsfile) (status : Z)
  : St -> status_result * St :=
  fits_close_file fptr status.

Definition fits_get_num_hdus_wrapper (fptr : fitsfile) (status : Z)
  : St -> num_hdus_result * St :=
  fits_get_num_hdus fptr status.

Definition fits_movabs_hdu_wrapper (fptr : fitsfile) (hdunum status : Z)
  : St -> movabs_result * St :=
  fits_movabs_hdu fptr hdunum status.

Definition fits_get_hdrspace_wrapper (fptr : fitsfile) (status : Z)
  : St -> hdrspace_result * St :=
  fits_get_hdrspace fptr status.

Definition fits_read_keyn_wrapper (fptr : fitsfile) (nkey status : Z)
  : St -> keyn_result * St :=
  fits_read_keyn fptr nkey status.

(** The engine is handed the local [naxes_long] and the caller's
    [maxdim]; then three cells are copied into the caller's [naxes].
    [None]: a store past the end of [naxes_long] or of [naxes]. *)
Definition fits_get_img_param_wrapper (fptr : fitsfile) (maxdim status : Z)
    (naxes : list cval) (st : St) : option (img_param_out * St) :=
  let '(r, st') := fits_get_img_param fptr maxdim status st in
  naxes_long ← store_from 0 (ip_written r) naxes_long_decl;
  naxes' ← for_loop 3 (copy_axis naxes_long) naxes;
  Some (ImgParamOut (ip_ret r) (ip_bitpix r) (ip_naxis r) naxes'
          (ip_status r), st').

(** [None]: an array without a first cell. *)
Definition fits_read_img_wrapper (fptr : fitsfile) (datatype : Z)
    (fpixel nelements : list Z) (nulval : option pixel) (status : Z)
    (st : St) : option (read_result pixel * St) :=
  req ← read_request fpixel nelements;
  Some (fits_read_img fptr datatype req.1 req.2 nulval status st).

Definition fits_get_errstatus_wrapper (status : Z) : St -> string * St :=
  fits_get_errstatus status.

End Wrappers.

End CAstrophotoKit.

(** ** The error taxonomy *)

(** Modelled from the spec: the error kinds of its section 7; the
    structured errors live on the Swift side of the bridge, which is
    missing from the C sources. *)
Inductive ErrorKind :=
  | OpenFailed
  | HandleClosed
  | InvalidHDUIndex
  | KeyNotFound
  | NotAnImageHDU
  | UnsupportedDimensionality
  | ReadFailed
  | FormatError.

(** Modelled from the spec: the status codes behind the error kinds of
    its section 7.  The numbers are those of [cfitsio/fitsio.h], which
    is not among the sources; all that is used of them is that they are
    distinct and not zero. *)
Definition FILE_NOT_OPENED : Z := 104.
Definition BAD_FILEPTR : Z := 114.
Definition KEY_OUT_BOUNDS : Z := 203.
Definition NOT_IMAGE : Z := 233.
Definition BAD_HDU_NUM : Z := 301.
Definition BAD_PIX_NUM : Z := 321.

(** Modelled from the spec: the error kind that each of the status
    codes above stands for in its section 7; any other code is a
    [FormatError]. *)
Definition kind_of_status (code : Z) : ErrorKind :=
  if decide (code = FILE_NOT_OPENED) then OpenFailed
  else if decide (code = BAD_FILEPTR) then HandleClosed
  else if decide (code = BAD_HDU_NUM) then InvalidHDUIndex
  else if decide (code = KEY_OUT_BOUNDS) then KeyNotFound
  else if decide (code = NOT_IMAGE) then NotAnImageHDU
  else if decide (code = BAD_PIX_NUM) then ReadFailed
  else FormatError.

(** ** Pixel order

    The linear, 1-based position of the pixel at the 1-based
    coordinates [fpixel] in an image of axis lengths [naxes], the first
    axis varying fastest. *)
Fixpoint offset0 (naxes fpixel : list Z) : Z :=
  match naxes, fpixel with
  | n :: ns, p :: ps => (p - 1) + n * offset0 ns ps
  | _, _ => 0
  end.

Definition linear_offset (naxes fpixel : list Z) : Z := 1 + offset0 naxes fpixel.

(** ** Repeated calls

    [calls n op st] runs the operation [op] [n] times in a row from the
    state [st], and returns the results in order with the last state. *)
Fixpoint calls {St R : Type} (n : nat) (op : St -> R * St) (st : St)
  : list R * St :=
  match n with
  | O => ([], st)
  | S n' =>
      let '(r, st1) := op st in
      let '(rs, st2) := calls n' op st1 in
      (r :: rs, st2)
  end.

(** ** The format engine *)

(** The engine is CFITSIO; its code is not among the sources.  What the
    layer relies on is modelled here from the spec: the data model of
    its section 3 and the primitives of its section 6. *)

Module Engine.

(** Modelled from the spec: the HDU type "image" of its section 3, as
    [IMAGE_HDU] of [cfitsio/fitsio.h]. *)
Definition IMAGE_HDU : Z := 0.

(** Modelled from the spec: the [HeaderKey] of its section 3; the
    ordinal of a key is its position in the header. *)
Record HeaderKey := mkHeaderKey {
  hk_name : string;
  hk_value : string;
  hk_comment : string
}.

(** Modelled from the spec: one Header/Data Unit, with the header
    (section 4.4: the keys and the room left), the [ImageParameters] of
    section 3 and the pixels in linear order. *)
Record HDU := mkHDU {
  hdu_type : Z;
  hdu_keys : list HeaderKey;
  hdu_more : Z;
  hdu_bitpix : Z;
  hdu_naxes : list Z;
  hdu_pixels : list Z
}.

(** Modelled from the spec: the resource behind a [FileHandle] of its
    section 3: the HDUs of the open file and the 1-based index of the
    current one. *)
Record fits := mkFits {
  hdus : list HDU;
  chdu : Z
}.

(** The engine's state: the open files; a [fitsfile] is an index into
    them. *)
Abbreviation state := (list fits).
Abbreviation fitsfile := nat.

(** The HDU at a 1-based index. *)
Definition hdu_at (f : fits) (index : Z) : option HDU :=
  if decide (1 <= index) then hdus f !! Z.to_nat (index - 1) else None.

(** The HDU under the cursor. *)
Definition current (f : fits) : option HDU := hdu_at f (chdu f).

Definition hdu_count (f : fits) : Z := Z.of_nat (length (hdus f)).

(** Modelled from the spec: the engine primitive "HDU-count" of its
    section 6, declared in [cfitsio/fitsio.h]. *)
Definition fits_get_num_hdus (fptr : fitsfile) (status : Z) (st : state)
  : num_hdus_result * state :=
  match st !! fptr with
  | None => (NumHdusResult BAD_FILEPTR 0 BAD_FILEPTR, st)
  | Some f => (NumHdusResult 0 (hdu_count f) 0, st)
  end.

(** Modelled from the spec: the engine primitive "seek-HDU", declared in
    [cfitsio/fitsio.h]: an index outside [1, hduCount] fails and leaves
    the cursor where it was (section 4.3). *)
Definition fits_movabs_hdu (fptr : fitsfile) (hdunum status : Z) (st : state)
  : movabs_result * state :=
  match st !! fptr with
  | None => (MovabsResult BAD_FILEPTR 0 BAD_FILEPTR, st)
  | Some f =>
      match hdu_at f hdunum with
      | Some h =>
          (MovabsResult 0 (hdu_type h) 0, <[fptr := mkFits (hdus f) hdunum]> st)
      | None => (MovabsResult BAD_HDU_NUM 0 BAD_HDU_NUM, st)
      end
  end.

(** Modelled from the spec: the engine primitive "header-space-query",
    declared in [cfitsio/fitsio.h]; it answers for the current HDU
    (section 4.4). *)
Definition fits_get_hdrspace (fptr : fitsfile) (status : Z) (st : state)
  : hdrspace_result * state :=
  match st !! fptr ≫= current with
  | None => (HdrspaceResult BAD_FILEPTR 0 0 BAD_FILEPTR, st)
  | Some h =>
      (HdrspaceResult 0 (Z.of_nat (length (hdu_keys h))) (hdu_more h) 0, st)
  end.

(** Modelled from the spec: the engine primitive
    "read-keyword-by-ordinal", declared in [cfitsio/fitsio.h]: the key
    at the 1-based ordinal of the current HDU's header, in physical
    order; an ordinal outside [1, existing] fails (section 4.4). *)
Definition fits_read_keyn (fptr : fitsfile) (nkey status : Z) (st : state)
  : keyn_result * state :=
  match st !! fptr ≫= current with
  | None => (KeynResult BAD_FILEPTR "" "" "" BAD_FILEPTR, st)
  | Some h =>
      match (if decide (1 <= nkey) then hdu_keys h !! Z.to_nat (nkey - 1)
             else None) with
      | Some k => (KeynResult 0 (hk_name k) (hk_value k) (hk_comment k) 0, st)
      | None => (KeynResult KEY_OUT_BOUNDS "" "" "" KEY_OUT_BOUNDS, st)
      end
  end.

(** Modelled from the spec: the engine primitive
    "read-image-parameters", declared in [cfitsio/fitsio.h]: bit depth,
    axis count, and the axis lengths up to [maxdim] of them; it fails on
    an HDU that is not an image (section 4.5). *)
Definition fits_get_img_param (fptr : fitsfile) (maxdim status : Z)
    (st : state) : img_param_result * state :=
  match st !! fptr ≫= current with
  | None => (ImgParamResult BAD_FILEPTR 0 0 [] BAD_FILEPTR, st)
  | Some h =>
      if decide (hdu_type h = IMAGE_HDU)
      then (ImgParamResult 0 (hdu_bitpix h)
              (Z.of_nat (length (hdu_naxes h)))
              (take (Z.to_nat maxdim) (hdu_naxes h)) 0, st)
      else (ImgParamResult NOT_IMAGE 0 0 [] NOT_IMAGE, st)
  end.

(** Modelled from the spec: the decoder's "read-pixel-run(starting
    linear offset, count, null value, datatype)" of its section 6: one
    contiguous run of the current image; the any-null flag says whether
    a decoded value equals the supplied null value, and is false when
    none is supplied (section 4.6).  The conversion to [datatype] is
    left out: samples are integers. *)
Definition read_run (h : HDU) (firstelem nelem : Z) (nulval : option Z)
  : read_result Z :=
  if decide (hdu_type h = IMAGE_HDU) then
    if decide (1 <= firstelem /\ 0 <= nelem /\
               firstelem - 1 + nelem <= Z.of_nat (length (hdu_pixels h)))
    then
      let data :=
        take (Z.to_nat nelem) (drop (Z.to_nat (firstelem - 1)) (hdu_pixels h)) in
      let anynul :=
        match nulval with
        | Some v => if decide (v ∈ data) then 1 else 0
        | None => 0
        end in
      ReadResult 0 data anynul 0
    else ReadResult BAD_PIX_NUM [] 0 BAD_PIX_NUM
  else ReadResult NOT_IMAGE [] 0 NOT_IMAGE.

(** Modelled from the spec: the pixel-read primitive taking a linear
    offset and a count ([fits_read_img] of [cfitsio/fitsio.h]). *)
Definition fits_read_img (fptr : fitsfile) (datatype firstelem nelem : Z)
    (nulval : option Z) (status : Z) (st : state) : read_result Z * state :=
  match st !! fptr ≫= current with
  | None => (ReadResult BAD_FILEPTR [] 0 BAD_FILEPTR, st)
  | Some h => (read_run h firstelem nelem nulval, st)
  end.

(** Modelled from the spec: the pixel-read primitive taking per-axis
    starting coordinates and a count ([fits_read_pix] of
    [cfitsio/fitsio.h]): the run starts at the linear position of the
    coordinates. *)
Definition fits_read_pix (fptr : fitsfile) (datatype : Z) (fpixel : list Z)
    (nelements : Z) (nulval : option Z) (status : Z) (st : state)
  : read_result Z * state :=
  match st !! fptr ≫= current with
  | None => (ReadResult BAD_FILEPTR [] 0 BAD_FILEPTR, st)
  | Some h =>
      (read_run h (linear_offset (hdu_naxes h) fpixel) nelements nulval, st)
  end.

End Engine.

(** An engine that only keeps the list of the handles it was asked to
    close, in the order of the requests. *)
Module CloseLog.

Definition fits_close_file (fptr : nat) (status : Z) (log : list nat)
  : status_result * list nat :=
  (StatusResult status status, log ++ [fptr]).

End CloseLog.

(** ** Sample files *)

Module Samples.
Import Engine.

Definition SHORT_NULL : Z := -32768.

(** A 16-bit image of 4 x 4 pixels; one pixel holds the null sentinel. *)
Definition image_4x4 : HDU :=
  mkHDU IMAGE_HDU
    [mkHeaderKey "SIMPLE" "T" "conforms to FITS standard";
     mkHeaderKey "BITPIX" "16" "bits per pixel";
     mkHeaderKey "NAXIS" "2" "number of axes";
     mkHeaderKey "NAXIS1" "4" "";
     mkHeaderKey "NAXIS2" "4" ""]
    31 16 [4; 4]
    [10; 11; 12; 13; 20; 21; SHORT_NULL; 23; 30; 31; 32; 33; 40; 41; 42; 43].

(** A binary table extension. *)
Definition table_hdu : HDU :=
  mkHDU 2
    [mkHeaderKey "XTENSION" "BINTABLE" "binary table extension";
     mkHeaderKey "TFIELDS" "0" ""]
    34 8 [] [].

(** An image of one axis and two pixels. *)
Definition image_2 : HDU :=
  mkHDU IMAGE_HDU [mkHeaderKey "NAXIS" "1" ""] 35 16 [2] [7; 9].

(** An image of four axes, of 2 x 3 x 5 x 7 pixels. *)
Definition image_4axes : HDU :=
  mkHDU IMAGE_HDU [mkHeaderKey "NAXIS" "4" ""] 35 16 [2; 3; 5; 7]
    (Z.of_nat <$> seq 0 210).

(** One open file of two HDUs, positioned at the primary HDU. *)
Definition two_hdus : state := [mkFits [image_4x4; table_hdu] 1].

Definition one_line : state := [mkFits [image_2] 1].

Definition four_axes : state := [mkFits [image_4axes] 1].

End Samples.

(** * Properties *)

Import Engine.

(** Range side conditions on literals. *)
Ltac solve_range :=
  unfold is_long, is_longlong, in_range, long_bits, MAX_AXES, list_prod;
  cbn [foldr]; lia.

(** ** Machine integers *)

Lemma pow2_split w : 0 < w -> 2 ^ w = 2 * 2 ^ (w - 1).
Proof.
  intros Hw. replace w with (Z.succ (w - 1)) at 1 by lia.
  rewrite Z.pow_succ_r by lia. reflexivity.
Qed.

Lemma swrap_in_range w x : 0 < w -> in_range w x -> swrap w x = x.
Proof.
  unfold in_range, swrap. intros Hw Hx.
  pose proof (pow2_split w Hw) as E.
  rewrite Z.mod_small by lia. lia.
Qed.

Lemma swrap_range w x : 0 < w -> in_range w (swrap w x).
Proof.
  unfold in_range, swrap. intros Hw.
  pose proof (pow2_split w Hw) as E.
  assert (0 < 2 ^ (w - 1)) by (apply Z.pow_pos_nonneg; lia).
  pose proof (Z.mod_pos_bound (x + 2 ^ (w - 1)) (2 ^ w)). lia.
Qed.

Lemma swrap_mod w x : 0 < w -> swrap w x mod 2 ^ w = x mod 2 ^ w.
Proof.
  unfold swrap. intros Hw.
  rewrite Zminus_mod, Zmod_mod, <- Zminus_mod.
  f_equal. lia.
Qed.

Lemma swrap_congr w x y : x mod 2 ^ w = y mod 2 ^ w -> swrap w x = swrap w y.
Proof.
  unfold swrap. intros E.
  rewrite (Zplus_mod x), (Zplus_mod y), E. reflexivity.
Qed.

Lemma long_bits_pos m : 0 < long_bits m.
Proof. destruct m; reflexivity. Qed.

(** Under LP64 a [long] holds every [LONGLONG]. *)
Lemma is_long_LP64 x : is_long LP64 x <-> is_longlong x.
Proof. reflexivity. Qed.

Lemma cast_long_id m x : is_long m x -> cast_long m x = x.
Proof. apply swrap_in_range, long_bits_pos. Qed.

Lemma cast_long_one m : cast_long m 1 = 1.
Proof. destruct m; reflexivity. Qed.

Lemma cast_long_is_long m x : is_long m (cast_long m x).
Proof. apply swrap_range, long_bits_pos. Qed.

Lemma list_prod_app l1 l2 : list_prod (l1 ++ l2) = list_prod l1 * list_prod l2.
Proof.
  induction l1 as [|x l1 IH]; simpl.
  - destruct (list_prod l2); reflexivity.
  - rewrite IH. lia.
Qed.

Lemma cast_long_mod m x :
  cast_long m x mod 2 ^ long_bits m = x mod 2 ^ long_bits m.
Proof. apply swrap_mod, long_bits_pos. Qed.

Lemma cast_long_congr m x y :
  x mod 2 ^ long_bits m = y mod 2 ^ long_bits m -> cast_long m x = cast_long m y.
Proof. apply swrap_congr. Qed.

Lemma cast_long_prod_map m l :
  cast_long m (list_prod (cast_long m <$> l)) = cast_long m (list_prod l).
Proof.
  induction l as [|x l IH]; [reflexivity|].
  rewrite fmap_cons. simpl.
  apply (f_equal (fun z => z mod 2 ^ long_bits m)) in IH.
  rewrite !cast_long_mod in IH.
  apply cast_long_congr.
  rewrite Zmult_mod, cast_long_mod, IH, <- Zmult_mod.
  reflexivity.
Qed.

(** *** Loops *)

Lemma for_loop_0 {S} (body : nat -> S -> option S) s : for_loop 0 body s = Some s.
Proof. reflexivity. Qed.

Lemma for_loop_S {S} n (body : nat -> S -> option S) s :
  for_loop (Datatypes.S n) body s = for_loop n body s ≫= body n.
Proof. unfold for_loop. rewrite seq_S, foldl_app. reflexivity. Qed.

Lemma dimsToCopy_le naxis : CCFITSIO.dimsToCopy naxis <= 3.
Proof. unfold CCFITSIO.dimsToCopy. case_match; lia. Qed.

Lemma dimsToCopy_small naxis : naxis <= 3 -> CCFITSIO.dimsToCopy naxis = naxis.
Proof. unfold CCFITSIO.dimsToCopy. intros. case_match; lia. Qed.

Lemma dimsToCopy_large naxis : 3 <= naxis -> CCFITSIO.dimsToCopy naxis = 3.
Proof. unfold CCFITSIO.dimsToCopy. intros. case_match; lia. Qed.

Lemma copy_loop m firstPixel numElements (n : nat) (a1 a2 : list Z) :
  (n <= length firstPixel)%nat -> (n <= length numElements)%nat ->
  (n <= length a1)%nat -> (n <= length a2)%nat ->
  for_loop n (CCFITSIO.copy_dim m firstPixel numElements) (a1, a2) =
  Some ((cast_long m <$> take n firstPixel) ++ drop n a1,
        (cast_long m <$> take n numElements) ++ drop n a2).
Proof.
  induction n as [|n IH]; intros H1 H2 H3 H4.
  - rewrite for_loop_0, !take_0, !drop_0. reflexivity.
  - rewrite for_loop_S, IH by lia. simpl.
    destruct (lookup_lt_is_Some_2 firstPixel n) as [x Hx]; [lia|].
    destruct (lookup_lt_is_Some_2 numElements n) as [y Hy]; [lia|].
    destruct (lookup_lt_is_Some_2 a1 n) as [u Hu]; [lia|].
    destruct (lookup_lt_is_Some_2 a2 n) as [v Hv]; [lia|].
    unfold CCFITSIO.copy_dim. rewrite Hx, Hy. simpl. f_equal.
    rewrite (take_S_r _ _ _ Hx), (take_S_r _ _ _ Hy), !fmap_app. simpl.
    rewrite (drop_S _ _ _ Hu), (drop_S _ _ _ Hv).
    assert (length (cast_long m <$> take n firstPixel) = n) as L1
      by (rewrite length_fmap, length_take; lia).
    assert (length (cast_long m <$> take n numElements) = n) as L2
      by (rewrite length_fmap, length_take; lia).
    rewrite !insert_app_r_alt by lia.
    rewrite L1, L2, Nat.sub_diag. simpl.
    rewrite <- !app_assoc. reflexivity.
Qed.

Lemma mul_loop m (l : list Z) (n : nat) :
  (n <= length l)%nat ->
  for_loop n (CCFITSIO.mul_dim m l) 1 = Some (cast_long m (list_prod (take n l))).
Proof.
  induction n as [|n IH]; intros Hn.
  - rewrite for_loop_0, take_0. simpl. rewrite cast_long_one. reflexivity.
  - rewrite for_loop_S, IH by lia. simpl.
    destruct (lookup_lt_is_Some_2 l n) as [x Hx]; [lia|].
    unfold CCFITSIO.mul_dim. rewrite Hx. simpl. f_equal.
    rewrite (take_S_r _ _ _ Hx), list_prod_app. simpl.
    unfold long_mul. apply cast_long_congr.
    rewrite Zmult_mod, cast_long_mod, <- Zmult_mod. f_equal. lia.
Qed.

Lemma read_request_eq m naxis firstPixel numElements :
  let n := Z.to_nat (CCFITSIO.dimsToCopy naxis) in
  (n <= length firstPixel)%nat -> (n <= length numElements)%nat ->
  CCFITSIO.read_request m naxis firstPixel numElements =
  Some ((cast_long m <$> take n firstPixel) ++ replicate (3 - n) 1,
        cast_long m (list_prod (take n numElements))).
Proof.
  intros n H1 H2.
  assert (n <= 3)%nat as Hn by (pose proof (dimsToCopy_le naxis); lia).
  unfold CCFITSIO.read_request. fold n.
  rewrite copy_loop by (simpl; lia). simpl.
  rewrite mul_loop by (rewrite length_app, length_fmap, length_take, length_drop; simpl; lia).
  simpl. f_equal. f_equal.
  - f_equal. destruct n as [|[|[|[|]]]]; try reflexivity; lia.
  - rewrite take_app_length' by (rewrite length_fmap, length_take; lia).
    apply cast_long_prod_map.
Qed.


Lemma cast_long_map_id m l : Forall (is_long m) l -> cast_long m <$> l = l.
Proof.
  induction 1 as [|x l Hx _ IH]; [reflexivity|].
  rewrite fmap_cons, IH, cast_long_id by done. reflexivity.
Qed.

Lemma list_prod_ones l k : list_prod (l ++ replicate k 1) = list_prod l.
Proof.
  rewrite list_prod_app.
  assert (list_prod (replicate k 1) = 1) as ->
    by (induction k as [|k IH]; simpl; [|rewrite IH]; reflexivity).
  lia.
Qed.

(** The body of the CCFITSIO pixel-read wrapper in closed form: the
    first [min naxis 3] coordinates are cast to [long] and padded with
    ones, and the count is the product of the first [min naxis 3]
    counts, reduced to a [long]. *)
Lemma ccfitsio_read_img_eq {fitsfile St pixel : Type}
    (fits_read_pix :
       fitsfile -> Z -> list Z -> Z -> option pixel -> Z -> St ->
       read_result pixel * St)
    m fptr dataType naxis firstPixel numElements nullValue status st :
  let n := Z.to_nat (CCFITSIO.dimsToCopy naxis) in
  (n <= length firstPixel)%nat -> (n <= length numElements)%nat ->
  CCFITSIO.fits_read_img_wrapper fits_read_pix m fptr dataType naxis
    firstPixel numElements nullValue status st =
  Some (fits_read_pix fptr dataType
          ((cast_long m <$> take n firstPixel) ++ replicate (3 - n) 1)
          (cast_long m (list_prod (take n numElements)))
          nullValue status st).
Proof.
  intros n H1 H2. unfold CCFITSIO.fits_read_img_wrapper.
  rewrite read_request_eq by done. reflexivity.
Qed.

Lemma cval_cast_longlong_id v : cval_cast_longlong v = v.
Proof. destruct v; reflexivity. Qed.

(** The engine's stores into the three-cell local buffer. *)
Lemma store_from_decl vs :
  (length vs <= 3)%nat ->
  store_from 0 vs CAstrophotoKit.naxes_long_decl
  = Some ((Vint <$> vs) ++ replicate (3 - length vs) Vundef).
Proof.
  destruct vs as [|a [|b [|c [|d vs]]]]; simpl; intros Hl;
    try reflexivity; lia.
Qed.

Lemma store_from_overflow vs :
  (3 < length vs)%nat ->
  store_from 0 vs CAstrophotoKit.naxes_long_decl = None.
Proof.
  destruct vs as [|a [|b [|c [|d vs]]]]; simpl; intros Hl;
    try reflexivity; lia.
Qed.

(** The copy loop of [fits_get_img_param_wrapper]. *)
Lemma copy_axis_eq (buf naxes : list cval) i v :
  buf !! i = Some v -> (i < length naxes)%nat ->
  CAstrophotoKit.copy_axis buf i naxes = Some (<[i := v]> naxes).
Proof.
  unfold CAstrophotoKit.copy_axis. intros -> Hi. simpl.
  rewrite decide_True, cval_cast_longlong_id by done. reflexivity.
Qed.

Lemma copy_axis_out_of_bounds (buf naxes : list cval) i :
  (length naxes <= i)%nat -> CAstrophotoKit.copy_axis buf i naxes = None.
Proof.
  unfold CAstrophotoKit.copy_axis. intros Hi.
  destruct (buf !! i); simpl; [|reflexivity].
  rewrite decide_False by lia. reflexivity.
Qed.

Lemma copy_axes_loop (buf naxes : list cval) :
  length buf = 3%nat -> (3 <= length naxes)%nat ->
  for_loop 3 (CAstrophotoKit.copy_axis buf) naxes = Some (buf ++ drop 3 naxes).
Proof.
  destruct buf as [|a [|b [|c [|? ?]]]]; try discriminate. intros _.
  destruct naxes as [|x [|y [|z rest]]]; simpl; try lia. intros _.
  rewrite !for_loop_S, for_loop_0. cbn [mbind option_bind].
  rewrite (copy_axis_eq _ _ 0 a) by (simpl; done || lia).
  cbn [mbind option_bind].
  rewrite (copy_axis_eq _ _ 1 b) by (simpl; done || lia).
  cbn [mbind option_bind].
  rewrite (copy_axis_eq _ _ 2 c) by (simpl; done || lia).
  reflexivity.
Qed.

Lemma copy_axes_short (buf naxes : list cval) :
  (length naxes < 3)%nat ->
  for_loop 3 (CAstrophotoKit.copy_axis buf) naxes = None.
Proof.
  intros Hn. rewrite !for_loop_S, for_loop_0. cbn [mbind option_bind].
  destruct (CAstrophotoKit.copy_axis buf 0 naxes) as [n1|] eqn:E1;
    [|reflexivity].
  cbn [mbind option_bind].
  destruct (CAstrophotoKit.copy_axis buf 1 n1) as [n2|] eqn:E2;
    [|reflexivity].
  cbn [mbind option_bind].
  apply copy_axis_out_of_bounds.
  unfold CAstrophotoKit.copy_axis in E1, E2.
  destruct (buf !! 0%nat); simpl in E1; [|discriminate].
  destruct (buf !! 1%nat); simpl in E2; [|discriminate].
  repeat case_decide; simplify_eq. rewrite !length_insert. lia.
Qed.

(** The engine's stores in closed form. *)
Lemma store_from_eq (vs : list Z) (a : list cval) (i : nat) :
  (i + length vs <= length a)%nat ->
  store_from i vs a
  = Some (take i a ++ (Vint <$> vs) ++ drop (i + length vs) a).
Proof.
  revert a i. induction vs as [|v vs IH]; intros a i Hlen; simpl in *.
  - rewrite Nat.add_0_r, take_drop. reflexivity.
  - rewrite decide_True by lia.
    rewrite IH by (rewrite length_insert; lia).
    f_equal.
    rewrite take_insert_lt by lia.
    rewrite drop_insert_lt by lia.
    destruct (lookup_lt_is_Some_2 a i) as [x Hx]; [lia|].
    rewrite (take_S_r _ _ _ Hx), insert_app_r_alt
      by (rewrite length_take; lia).
    rewrite length_take, Nat.min_l, Nat.sub_diag by lia. simpl.
    rewrite <- app_assoc. simpl.
    replace (i + Datatypes.S (length vs))%nat
      with (Datatypes.S i + length vs)%nat by lia.
    reflexivity.
Qed.

Lemma split_cells_length (a : list cval) :
  length (a ≫= split_cell) = (2 * length a)%nat.
Proof.
  induction a as [|c a IH]; [reflexivity|].
  rewrite bind_cons, length_app, IH. destruct c; simpl; lia.
Qed.

Lemma store_longs_eq (m : data_model) (vs : list Z) (a : list cval) :
  (length vs <= match m with
                | LP64 => length a
                | LLP64 => 2 * length a
                end)%nat ->
  store_longs m vs a
  = Some (match m with
          | LP64 => (Vint <$> vs) ++ drop (length vs) a
          | LLP64 =>
              join_cells ((Vint <$> vs) ++ drop (length vs) (a ≫= split_cell))
          end).
Proof.
  destruct m; intros Hlen; unfold store_longs.
  - rewrite store_from_eq by (simpl; lia). reflexivity.
  - rewrite store_from_eq by (rewrite split_cells_length; simpl; lia).
    reflexivity.
Qed.

(** A cell that holds a [LONGLONG] is its two halves put together. *)
Lemma join_split_cell (z : Z) :
  is_longlong z ->
  join_cells (split_cell (Vint z)) = [Vint z].
Proof.
  intros Hz. simpl. rewrite !Zmod_mod.
  f_equal. f_equal.
  replace (z mod 2 ^ 32 + 2 ^ 32 * ((z / 2 ^ 32) mod 2 ^ 32))
    with (z mod 2 ^ 64).
  - unfold swrap. unfold is_longlong, in_range in Hz.
    change (2 ^ (64 - 1)) with 9223372036854775808 in *.
    rewrite Zplus_mod_idemp_l.
    rewrite Z.mod_small by lia. lia.
  - change (2 ^ 64) with (2 ^ 32 * 2 ^ 32).
    rewrite Z.rem_mul_r by lia. reflexivity.
Qed.

(** An array of [LONGLONG] values is its slots put together again: an
    engine that stores nothing leaves it as it was. *)
Lemma join_split_cells (a : list cval) :
  Forall (fun c => match c with Vint z => is_longlong z | Vundef => True end) a ->
  join_cells (a ≫= split_cell) = a.
Proof.
  induction 1 as [|c a Hc _ IH]; [reflexivity|].
  rewrite bind_cons. destruct c as [|z].
  - simpl. rewrite IH. reflexivity.
  - pose proof (join_split_cell z Hc) as Hz. simpl in *.
    injection Hz as Hz. rewrite Hz, IH. reflexivity.
Qed.

(** The CAstrophotoKit image-parameter wrapper in closed form. *)
Lemma astro_img_param_eq {fitsfile St : Type}
    (fits_get_img_param : fitsfile -> Z -> Z -> St -> img_param_result * St)
    fptr maxdim status naxes st :
  let r := (fits_get_img_param fptr maxdim status st).1 in
  (length (ip_written r) <= 3)%nat -> (3 <= length naxes)%nat ->
  CAstrophotoKit.fits_get_img_param_wrapper fits_get_img_param fptr maxdim
    status naxes st
  = Some (ImgParamOut (ip_ret r) (ip_bitpix r) (ip_naxis r)
            ((Vint <$> ip_written r)
               ++ replicate (3 - length (ip_written r)) Vundef
               ++ drop 3 naxes)
            (ip_status r),
          (fits_get_img_param fptr maxdim status st).2).
Proof.
  intros r Hw Hn. unfold CAstrophotoKit.fits_get_img_param_wrapper.
  subst r. destruct (fits_get_img_param fptr maxdim status st) as [r st'].
  simpl in *. rewrite store_from_decl by done. simpl.
  rewrite copy_axes_loop.
  - simpl. rewrite <- app_assoc. reflexivity.
  - rewrite length_app, length_fmap, length_replicate. lia.
  - done.
Qed.

Lemma astro_img_param_overflow {fitsfile St : Type}
    (fits_get_img_param : fitsfile -> Z -> Z -> St -> img_param_result * St)
    fptr maxdim status naxes st :
  (3 < length (ip_written (fits_get_img_param fptr maxdim status st).1))%nat ->
  CAstrophotoKit.fits_get_img_param_wrapper fits_get_img_param fptr maxdim
    status naxes st = None.
Proof.
  intros Hw. unfold CAstrophotoKit.fits_get_img_param_wrapper.
  destruct (fits_get_img_param fptr maxdim status st) as [r st'].
  simpl in *. rewrite store_from_overflow by done. reflexivity.
Qed.

(** The all-ones coordinates are the first pixel. *)
Lemma offset0_ones naxes k : offset0 naxes (replicate k 1) = 0.
Proof.
  revert k. induction naxes as [|n ns IH]; intros [|k]; simpl;
    try reflexivity.
  rewrite IH. lia.
Qed.

Lemma linear_offset_ones naxes : linear_offset naxes [1; 1; 1] = 1.
Proof.
  unfold linear_offset. change [1; 1; 1] with (replicate 3 1).
  rewrite offset0_ones. reflexivity.
Qed.

(** A run from the first pixel that the image holds is served in
    full. *)
Lemma engine_read_pix_from_start (st : state) fptr h dt nelem nv status :
  st !! fptr ≫= current = Some h ->
  hdu_type h = IMAGE_HDU ->
  0 <= nelem <= Z.of_nat (length (hdu_pixels h)) ->
  exists res, fits_read_pix fptr dt [1; 1; 1] nelem nv status st = (res, st)
    /\ rd_status res = 0
    /\ rd_array res = take (Z.to_nat nelem) (hdu_pixels h)
    /\ Z.of_nat (length (rd_array res)) = nelem.
Proof.
  intros Hh Ht Hn. unfold fits_read_pix. rewrite Hh.
  eexists. split; [reflexivity|].
  unfold read_run. rewrite decide_True by done.
  rewrite linear_offset_ones.
  destruct (decide (1 <= 1 /\ 0 <= nelem /\
                    1 - 1 + nelem <= Z.of_nat (length (hdu_pixels h))))
    as [_|Hc]; [|exfalso; apply Hc; lia].
  change (Z.to_nat (1 - 1)) with 0%nat. rewrite drop_0.
  cbn [rd_status rd_array].
  split; [reflexivity|]. split; [reflexivity|].
  rewrite length_take. lia.
Qed.

(** ** The claims *)

(** C1, as stated, fails: the counts are cast to C's [long] and
    multiplied there.  With a 32-bit [long], the single count
    4294967298 is narrowed to 2, and the counts [65536, 65536] give a
    total of 0, not 4294967296; with a 64-bit [long] the counts
    [2^32, 2^32] give 0 as well. *)
Lemma C1_counterexample :
  CCFITSIO.read_request LLP64 1 [1] [4294967298] = Some ([1; 1; 1], 2)
  /\ list_prod [4294967298] = 4294967298
  /\ CCFITSIO.read_request LLP64 2 [1; 1] [65536; 65536] = Some ([1; 1; 1], 0)
  /\ list_prod [65536; 65536] = 4294967296
  /\ CCFITSIO.read_request LP64 2 [1; 1] [4294967296; 4294967296]
     = Some ([1; 1; 1], 0)
  /\ list_prod [4294967296; 4294967296] = 18446744073709551616.
Proof. repeat split; vm_compute; reflexivity. Qed.

(** C1 (amended).  For an axis count between 0 and [MAX_AXES], starting
    coordinates that fit in a [long], and counts whose product fits in a
    [long], the decoder is handed the starting coordinates padded with
    ones up to three axes, and a total element count equal to the
    product of the counts of the axes present; padding the counts with
    ones leaves that product unchanged.  When the read starts at the
    first pixel and the image holds that many pixels, the engine returns
    a buffer of exactly that many elements: for [naxis = 2],
    [firstPixel = [1, 1]] and [numElements = [W, H]], of [W * H]
    elements. *)
Theorem C1_total_is_product {fitsfile St pixel : Type}
    (fits_read_pix :
       fitsfile -> Z -> list Z -> Z -> option pixel -> Z -> St ->
       read_result pixel * St)
    (m : data_model) (fptr : fitsfile) (dataType naxis : Z)
    (firstPixel numElements : list Z) (nullValue : option pixel)
    (status : Z) (st : St) :
  0 <= naxis <= MAX_AXES ->
  length firstPixel = Z.to_nat naxis ->
  length numElements = Z.to_nat naxis ->
  Forall (is_long m) firstPixel ->
  is_long m (list_prod numElements) ->
  let pad := replicate (3 - Z.to_nat naxis) 1 in
  CCFITSIO.read_request m naxis firstPixel numElements
    = Some (firstPixel ++ pad, list_prod numElements)
  /\ list_prod (numElements ++ pad) = list_prod numElements
  /\ CCFITSIO.fits_read_img_wrapper fits_read_pix m fptr dataType naxis
       firstPixel numElements nullValue status st
     = Some (fits_read_pix fptr dataType (firstPixel ++ pad)
               (list_prod numElements) nullValue status st)
  /\ (forall (est : state) (efptr : Engine.fitsfile) (h : HDU)
             (nulval : option Z),
        est !! efptr ≫= current = Some h ->
        hdu_type h = IMAGE_HDU ->
        firstPixel = replicate (Z.to_nat naxis) 1 ->
        0 <= list_prod numElements <= Z.of_nat (length (hdu_pixels h)) ->
        exists res,
          CCFITSIO.fits_read_img_wrapper Engine.fits_read_pix m efptr
            dataType naxis firstPixel numElements nulval status est
          = Some (res, est)
          /\ rd_status res = 0
          /\ Z.of_nat (length (rd_array res)) = list_prod numElements).
Proof.
  intros Hn Hfp Hne Hfpr Hprod pad. unfold MAX_AXES in Hn.
  assert (Z.to_nat (CCFITSIO.dimsToCopy naxis) = Z.to_nat naxis) as Hd
    by (rewrite dimsToCopy_small; lia).
  assert (CCFITSIO.read_request m naxis firstPixel numElements
          = Some (firstPixel ++ pad, list_prod numElements)) as Hreq.
  { rewrite read_request_eq by lia. rewrite Hd.
    rewrite <- Hfp at 1. rewrite <- Hne at 2. rewrite !firstn_all.
    rewrite cast_long_map_id, cast_long_id by done. reflexivity. }
  split; [exact Hreq|]. split; [apply list_prod_ones|].
  split.
  - unfold CCFITSIO.fits_read_img_wrapper. rewrite Hreq. reflexivity.
  - intros est efptr h nulval Hh Ht Hones Hlen.
    unfold CCFITSIO.fits_read_img_wrapper. rewrite Hreq. simpl.
    assert (firstPixel ++ pad = [1; 1; 1]) as ->.
    { subst pad. rewrite Hones, <- replicate_add.
      replace (Z.to_nat naxis + (3 - Z.to_nat naxis))%nat with 3%nat by lia.
      reflexivity. }
    destruct (engine_read_pix_from_start est efptr h dataType
                (list_prod numElements) nulval status Hh Ht Hlen)
      as (res & -> & Hs & _ & Hl).
    exists res. auto.
Qed.

Lemma C1_total_is_product_witness :
  (0 <= 2 <= MAX_AXES)
  /\ is_long LLP64 (list_prod [4; 4])
  /\ CCFITSIO.read_request LLP64 2 [1; 1] [4; 4] = Some ([1; 1; 1], 16)
  /\ exists res,
       CCFITSIO.fits_read_img_wrapper Engine.fits_read_pix LLP64 0%nat 21 2
         [1; 1] [4; 4] None 0 Samples.two_hdus
       = Some (res, Samples.two_hdus)
       /\ rd_status res = 0
       /\ Z.of_nat (length (rd_array res)) = list_prod [4; 4].
Proof.
  split; [solve_range|]. split; [solve_range|].
  destruct (C1_total_is_product (@Engine.fits_read_pix) LLP64 0%nat 21 2
              [1; 1] [4; 4] None 0 Samples.two_hdus)
    as (H1 & _ & _ & H4).
  - solve_range.
  - reflexivity.
  - reflexivity.
  - repeat constructor; solve_range.
  - solve_range.
  - split; [exact H1|].
    apply (H4 Samples.two_hdus 0%nat Samples.image_4x4 None);
      [reflexivity | reflexivity | reflexivity | simpl; lia].
Defined.

(** A caller's array shorter than the axis count is read past its
    end. *)
Example read_request_short_array :
  CCFITSIO.read_request LP64 2 [1] [4; 4] = None.
Proof. reflexivity. Qed.

(** The instance of C1 for a two-axis read. *)
Lemma read_request_two_axes m W H :
  is_long m (W * H) ->
  CCFITSIO.read_request m 2 [1; 1] [W; H] = Some ([1; 1; 1], W * H).
Proof.
  intros HWH. rewrite read_request_eq by (vm_compute; lia).
  change (Z.to_nat (CCFITSIO.dimsToCopy 2)) with 2%nat. simpl.
  rewrite cast_long_one, Z.mul_1_r, cast_long_id by done.
  reflexivity.
Qed.

(** C2, as stated, fails: nothing is validated.  With a 32-bit [long],
    a request for 4294967298 elements of a one-axis image is narrowed to
    a request for 2; the engine serves it and the wrapper returns
    success with 2 elements.  With a 64-bit [long], the counts
    [2^32, 2^32] fit but their product does not: the engine is asked
    for 0 elements and the wrapper returns success. *)
Lemma C2_counterexample :
  ~ is_long LLP64 4294967298
  /\ CCFITSIO.read_request LLP64 1 [1] [4294967298] = Some ([1; 1; 1], 2)
  /\ CCFITSIO.fits_read_img_wrapper Engine.fits_read_pix LLP64 0%nat 0 1
       [1] [4294967298] None 0 Samples.one_line
     = Some (ReadResult 0 [7; 9] 0 0, Samples.one_line)
  /\ ~ is_long LP64 (list_prod [4294967296; 4294967296])
  /\ CCFITSIO.fits_read_img_wrapper Engine.fits_read_pix LP64 0%nat 0 2
       [1; 1] [4294967296; 4294967296] None 0 Samples.two_hdus
     = Some (ReadResult 0 [] 0 0, Samples.two_hdus).
Proof.
  split; [solve_range|]. split; [vm_compute; reflexivity|].
  split; [vm_compute; reflexivity|]. split; [solve_range|].
  vm_compute; reflexivity.
Qed.

(** C2 (amended).  The pixel-read path narrows every starting
    coordinate and count it uses with a C cast, and multiplies the
    counts in [long], without a check: the engine is called with the
    narrowed coordinates and the narrowed product, and the wrapper
    returns what the engine returns for them.  A value that fits in a
    [long] is passed unchanged; any other is replaced by the [long]
    congruent to it modulo [2^w], [w] the width of [long]. *)
Theorem C2_narrowing_is_unchecked {fitsfile St pixel : Type}
    (fits_read_pix :
       fitsfile -> Z -> list Z -> Z -> option pixel -> Z -> St ->
       read_result pixel * St)
    (m : data_model) (fptr : fitsfile) (dataType naxis : Z)
    (firstPixel numElements : list Z) (nullValue : option pixel)
    (status : Z) (st : St) :
  let n := Z.to_nat (CCFITSIO.dimsToCopy naxis) in
  (n <= length firstPixel)%nat ->
  (n <= length numElements)%nat ->
  CCFITSIO.fits_read_img_wrapper fits_read_pix m fptr dataType naxis
    firstPixel numElements nullValue status st
  = Some (fits_read_pix fptr dataType
            ((cast_long m <$> take n firstPixel) ++ replicate (3 - n) 1)
            (cast_long m (list_prod (take n numElements)))
            nullValue status st)
  /\ (forall x, is_long m x -> cast_long m x = x)
  /\ (forall x, is_long m (cast_long m x)
                /\ cast_long m x mod 2 ^ long_bits m = x mod 2 ^ long_bits m).
Proof.
  intros n H1 H2. split; [|split].
  - apply ccfitsio_read_img_eq; assumption.
  - intros x. apply cast_long_id.
  - intros x. split; [apply cast_long_is_long | apply cast_long_mod].
Qed.

Lemma C2_narrowing_is_unchecked_witness :
(Z.to_nat (CCFITSIO.dimsToCopy 1) <= 1)%nat
  /\ CCFITSIO.fits_read_img_wrapper Engine.fits_read_pix LLP64 0%nat 0 1
       [1] [4294967298] None 0 Samples.one_line
     = Some (Engine.fits_read_pix 0%nat 0
               ((cast_long LLP64 <$> [1]) ++ [1; 1])
               (cast_long LLP64 (list_prod [4294967298]))
               None 0 Samples.one_line).
Proof.
  split; [vm_compute; lia|].
  apply (C2_narrowing_is_unchecked Engine.fits_read_pix LLP64 0%nat 0 1
           [1] [4294967298] None 0 Samples.one_line); vm_compute; lia.
Defined.

(** C3, as stated, fails for the image parameters: what comes back
    depends on the [maxdim] the caller passes.  For the sample image of
    four axes, of lengths 2, 3, 5 and 7, [maxdim = 4] makes the engine
    store a fourth length past the end of the three-cell buffer, and
    [maxdim = 2] returns the first two lengths and an uninitialised
    cell, not the first three lengths. *)
Lemma C3_counterexample :
  take 3 (hdu_naxes Samples.image_4axes) = [2; 3; 5]
  /\ CAstrophotoKit.fits_get_img_param_wrapper Engine.fits_get_img_param
       0%nat 4 0 [Vint 9; Vint 9; Vint 9; Vint 9] Samples.four_axes
     = None
  /\ CAstrophotoKit.fits_get_img_param_wrapper Engine.fits_get_img_param
       0%nat 2 0 [Vint 9; Vint 9; Vint 9; Vint 9] Samples.four_axes
     = Some (ImgParamOut 0 16 4 [Vint 2; Vint 3; Vundef; Vint 9] 0,
             Samples.four_axes).
Proof. repeat split. Qed.

(** C3 (amended).  A read request for more than [MAX_AXES] axes is cut
    to its first three: the request is the one made for [naxis = 3] on
    the first three coordinates and counts, the count is the product of
    the first three counts alone (a trailing axis counts for 1), any two
    requests that agree on the first three entries are the same, and
    the wrapper returns what the engine returns, never an error of its
    own.  For an image of more than [MAX_AXES] axes and an engine that
    stores [min maxdim naxis] lengths, the image-parameter wrapper
    called with [0 <= maxdim <= MAX_AXES] returns the [maxdim] lengths
    the engine stored, followed by uninitialised cells up to the third,
    with the engine's axis count (not cut) and status; called with
    [maxdim = MAX_AXES] it returns three lengths. *)
Theorem C3_truncation_policy {fitsfile St pixel : Type}
    (fits_read_pix :
       fitsfile -> Z -> list Z -> Z -> option pixel -> Z -> St ->
       read_result pixel * St)
    (fits_get_img_param : fitsfile -> Z -> Z -> St -> img_param_result * St)
    (m : data_model) (fptr : fitsfile) (dataType naxis maxdim : Z)
    (firstPixel numElements : list Z) (nullValue : option pixel)
    (status : Z) (st : St) (naxes : list cval) :
  MAX_AXES < naxis ->
  (3 <= length firstPixel)%nat ->
  (3 <= length numElements)%nat ->
  MAX_AXES < ip_naxis (fits_get_img_param fptr maxdim status st).1 ->
  0 <= maxdim <= MAX_AXES ->
  length (ip_written (fits_get_img_param fptr maxdim status st).1)
    = Z.to_nat
        (Z.min maxdim (ip_naxis (fits_get_img_param fptr maxdim status st).1)) ->
  (3 <= length naxes)%nat ->
  CCFITSIO.fits_read_img_wrapper fits_read_pix m fptr dataType naxis
    firstPixel numElements nullValue status st
  = CCFITSIO.fits_read_img_wrapper fits_read_pix m fptr dataType 3
      (take 3 firstPixel) (take 3 numElements) nullValue status st
  /\ CCFITSIO.fits_read_img_wrapper fits_read_pix m fptr dataType naxis
       firstPixel numElements nullValue status st
     = Some (fits_read_pix fptr dataType (cast_long m <$> take 3 firstPixel)
               (cast_long m (list_prod (take 3 numElements)))
               nullValue status st)
  /\ (forall naxis' firstPixel' numElements',
        MAX_AXES < naxis' ->
        take 3 firstPixel' = take 3 firstPixel ->
        take 3 numElements' = take 3 numElements ->
        CCFITSIO.read_request m naxis' firstPixel' numElements'
        = CCFITSIO.read_request m naxis firstPixel numElements)
  /\ (let r := (fits_get_img_param fptr maxdim status st).1 in
      CAstrophotoKit.fits_get_img_param_wrapper fits_get_img_param fptr
        maxdim status naxes st
      = Some (ImgParamOut (ip_ret r) (ip_bitpix r) (ip_naxis r)
                ((Vint <$> ip_written r)
                   ++ replicate (3 - Z.to_nat maxdim) Vundef
                   ++ drop 3 naxes)
                (ip_status r),
              (fits_get_img_param fptr maxdim status st).2)
      /\ length (ip_written r) = Z.to_nat maxdim
      /\ (maxdim = MAX_AXES ->
          length (ip_written r) = 3%nat
          /\ CAstrophotoKit.fits_get_img_param_wrapper fits_get_img_param fptr
               maxdim status naxes st
             = Some (ImgParamOut (ip_ret r) (ip_bitpix r) (ip_naxis r)
                       ((Vint <$> ip_written r) ++ drop 3 naxes)
                       (ip_status r),
                     (fits_get_img_param fptr maxdim status st).2))).
Proof.
  intros Hn Hfp Hne Himg Hmax Hw Hnaxes.
  unfold MAX_AXES in Hn, Himg, Hmax.
  assert (Z.to_nat (CCFITSIO.dimsToCopy naxis) = 3%nat) as Hd
    by (rewrite dimsToCopy_large; lia).
  assert (CCFITSIO.fits_read_img_wrapper fits_read_pix m fptr dataType naxis
            firstPixel numElements nullValue status st
          = Some (fits_read_pix fptr dataType
                    (cast_long m <$> take 3 firstPixel)
                    (cast_long m (list_prod (take 3 numElements)))
                    nullValue status st)) as Hreq.
  { rewrite ccfitsio_read_img_eq by lia. rewrite Hd. simpl.
    rewrite app_nil_r. reflexivity. }
  split; [|split; [exact Hreq|split]].
  - rewrite Hreq. rewrite ccfitsio_read_img_eq
      by (change (Z.to_nat (CCFITSIO.dimsToCopy 3)) with 3%nat;
          rewrite length_take; lia).
    change (Z.to_nat (CCFITSIO.dimsToCopy 3)) with 3%nat. simpl.
    rewrite !take_take, app_nil_r. reflexivity.
  - intros naxis' firstPixel' numElements' Hn' Efp Ene.
    unfold MAX_AXES in Hn'.
    assert (Z.to_nat (CCFITSIO.dimsToCopy naxis') = 3%nat) as Hd'
      by (rewrite dimsToCopy_large; lia).
    assert (3 <= length firstPixel')%nat.
    { apply (f_equal length) in Efp. rewrite !length_take in Efp. lia. }
    assert (3 <= length numElements')%nat.
    { apply (f_equal length) in Ene. rewrite !length_take in Ene. lia. }
    rewrite !read_request_eq by lia. rewrite Hd, Hd', Efp, Ene. reflexivity.
  - intros r. subst r.
    rewrite Z.min_l in Hw by lia.
    rewrite astro_img_param_eq by (rewrite ?Hw; lia).
    rewrite Hw. split; [reflexivity|]. split; [reflexivity|].
    intros ->. unfold MAX_AXES. split; reflexivity.
Qed.

Lemma C3_truncation_policy_witness :
  MAX_AXES < 4
  /\ CCFITSIO.fits_read_img_wrapper Engine.fits_read_pix LP64 0%nat 21 4
       [1; 1; 1; 2] [2; 3; 5; 7] None 0 Samples.four_axes
     = Some (ReadResult 0 (Z.of_nat <$> seq 0 30) 0 0, Samples.four_axes)
  /\ CAstrophotoKit.fits_get_img_param_wrapper Engine.fits_get_img_param
       0%nat MAX_AXES 0 [Vundef; Vundef; Vundef; Vundef] Samples.four_axes
     = Some (ImgParamOut 0 16 4 [Vint 2; Vint 3; Vint 5; Vundef] 0,
             Samples.four_axes).
Proof.
  split; [solve_range|].
  destruct (C3_truncation_policy Engine.fits_read_pix
              Engine.fits_get_img_param LP64 0%nat 21 4 MAX_AXES
              [1; 1; 1; 2] [2; 3; 5; 7] None 0 Samples.four_axes
              [Vundef; Vundef; Vundef; Vundef]) as (_ & H2 & _ & H4 & _);
    [ reflexivity | simpl; lia | simpl; lia | reflexivity
    | unfold MAX_AXES; lia | reflexivity | simpl; lia | ].
  split; [exact H2 | exact H4].
Defined.

(** C9.  [fits_get_img_param_wrapper] of CAstrophotoKit hands the
    caller's [maxdim] and a three-cell local buffer to the engine, and
    then copies three cells into the caller's [naxes], whatever the axis
    count.  For an engine that stores [min maxdim naxis] lengths:
    with [maxdim <= 3] the call is defined, and the output is the
    stored lengths followed by what the rest of the buffer held, which
    was never written; with [maxdim > 3] an image of more than three
    axes makes the engine store past the end of the buffer; for an
    image of fewer than three axes the output cells from [naxis] on are
    uninitialised; and a caller's array of fewer than three cells is
    overrun by the copy. *)
Theorem C9_img_param_local_buffer {fitsfile St : Type}
    (fits_get_img_param : fitsfile -> Z -> Z -> St -> img_param_result * St)
    (fptr : fitsfile) (maxdim status : Z) (naxes : list cval) (st : St) :
  let r := (fits_get_img_param fptr maxdim status st).1 in
  let st' := (fits_get_img_param fptr maxdim status st).2 in
  let call :=
    CAstrophotoKit.fits_get_img_param_wrapper fits_get_img_param fptr maxdim
      status naxes st in
  length (ip_written r) = Z.to_nat (Z.min maxdim (ip_naxis r)) ->
  (maxdim <= 3 -> (3 <= length naxes)%nat ->
     call = Some (ImgParamOut (ip_ret r) (ip_bitpix r) (ip_naxis r)
                    ((Vint <$> ip_written r)
                       ++ replicate (3 - length (ip_written r)) Vundef
                       ++ drop 3 naxes)
                    (ip_status r), st'))
  /\ (3 < maxdim -> 3 < ip_naxis r -> call = None)
  /\ (ip_naxis r < 3 -> (3 <= length naxes)%nat ->
        exists out, call = Some (out, st')
          /\ forall i : nat, ip_naxis r <= Z.of_nat i < 3 ->
               ipo_naxes out !! i = Some Vundef)
  /\ ((length naxes < 3)%nat -> call = None).
Proof.
  intros r st' call Hlen. subst call.
  split; [|split; [|split]].
  - intros Hmax Hn. apply astro_img_param_eq; [fold r; lia | done].
  - intros Hmax Hnax. apply astro_img_param_overflow. fold r. lia.
  - intros Hnax Hn. eexists. split.
    + apply astro_img_param_eq; [fold r; lia | done].
    + intros i Hi. simpl. fold r.
      rewrite lookup_app_r by (rewrite length_fmap; lia).
      rewrite length_fmap, lookup_app_l by (rewrite length_replicate; lia).
      apply lookup_replicate_2. lia.
  - intros Hn. unfold CAstrophotoKit.fits_get_img_param_wrapper.
    fold r in Hlen. subst r. clear st'.
    destruct (fits_get_img_param fptr maxdim status st) as [r st'].
    simpl in *.
    destruct (store_from 0 (ip_written r) CAstrophotoKit.naxes_long_decl);
      simpl; [|reflexivity].
    rewrite copy_axes_short by done. reflexivity.
Qed.

Lemma C9_img_param_local_buffer_witness :
  length (ip_written (Engine.fits_get_img_param 0%nat 3 0 Samples.two_hdus).1)
  = Z.to_nat (Z.min 3
      (ip_naxis (Engine.fits_get_img_param 0%nat 3 0 Samples.two_hdus).1))
  /\ CAstrophotoKit.fits_get_img_param_wrapper Engine.fits_get_img_param
       0%nat 3 0 [Vint 0; Vint 0; Vint 0] Samples.two_hdus
     = Some (ImgParamOut 0 16 2 [Vint 4; Vint 4; Vundef] 0, Samples.two_hdus).
Proof.
  split; [reflexivity|].
  destruct (C9_img_param_local_buffer Engine.fits_get_img_param 0%nat 3 0
              [Vint 0; Vint 0; Vint 0] Samples.two_hdus) as (H1 & _);
    [reflexivity|].
  apply H1; [lia | simpl; lia].
Defined.

(** C10, as stated, fails where [long] is 32 bits wide: for an image of
    65536 x 65536 pixels read in full, CCFITSIO asks the engine for 0
    elements and CAstrophotoKit for 4294967296. *)
Lemma C10_counterexample :
  CCFITSIO.read_request LLP64 2 [1; 1] [65536; 65536] = Some ([1; 1; 1], 0)
  /\ CAstrophotoKit.read_request [1] [list_prod [65536; 65536]]
     = Some (1, 4294967296)
  /\ is_longlong (list_prod [65536; 65536]).
Proof.
  split; [vm_compute; reflexivity|]. split; [vm_compute; reflexivity|].
  solve_range.
Qed.

(** A full read through CCFITSIO: all-ones coordinates, the axis
    lengths as counts. *)
Lemma ccfitsio_full_read_request (m : data_model) (naxes : list Z) :
  (length naxes <= 3)%nat ->
  is_long m (list_prod naxes) ->
  CCFITSIO.read_request m (Z.of_nat (length naxes))
    (replicate (length naxes) 1) naxes
  = Some ([1; 1; 1], list_prod naxes).
Proof.
  intros Hn Hprod.
  assert (Z.to_nat (CCFITSIO.dimsToCopy (Z.of_nat (length naxes)))
          = length naxes) as Hd by (rewrite dimsToCopy_small; lia).
  rewrite read_request_eq by (rewrite Hd, ?length_replicate; lia).
  rewrite Hd, firstn_all, cast_long_id by done.
  rewrite take_replicate, Nat.min_id.
  rewrite cast_long_map_id
    by (apply Forall_replicate; unfold is_long, in_range;
        destruct m; simpl; lia).
  rewrite <- replicate_add.
  replace (length naxes + (3 - length naxes))%nat with 3%nat by lia.
  reflexivity.
Qed.

(** C10 (amended).  For an image of one to three axes read in full,
    provided the product of its axis lengths fits in a [long] (it always
    does where [long] is 64 bits wide and the product is a LONGLONG),
    the two pixel-read wrappers ask the engine for the same run:
    CCFITSIO, given the all-ones coordinates and the axis lengths, asks
    for the product of the lengths from the coordinates [1, 1, 1], whose
    linear position is 1; CAstrophotoKit, given the linear offset 1 and
    the product, asks for the product from offset 1. *)
Theorem C10_same_request (m : data_model) (naxes : list Z) :
  (1 <= length naxes <= 3)%nat ->
  is_long m (list_prod naxes) ->
  CCFITSIO.read_request m (Z.of_nat (length naxes))
    (replicate (length naxes) 1) naxes
  = Some ([1; 1; 1], list_prod naxes)
  /\ CAstrophotoKit.read_request [1] [list_prod naxes]
     = Some (linear_offset naxes [1; 1; 1], list_prod naxes).
Proof.
  intros Hn Hprod. split.
  - apply ccfitsio_full_read_request; [lia | done].
  - rewrite linear_offset_ones. reflexivity.
Qed.

Lemma C10_same_request_witness :
  (1 <= length [4; 4] <= 3)%nat
  /\ is_long LLP64 (list_prod [4; 4])
  /\ CCFITSIO.read_request LLP64 2 [1; 1] [4; 4] = Some ([1; 1; 1], 16)
  /\ CAstrophotoKit.read_request [1] [16] = Some (1, 16).
Proof.
  split; [simpl; lia|]. split; [solve_range|].
  apply (C10_same_request LLP64 [4; 4]); [simpl; lia | solve_range].
Defined.

(** Handed the per-axis arrays instead, CAstrophotoKit asks for the
    first count alone: its [nelements] is the total, not an array of
    counts. *)
Example astro_read_request_arrays :
  CAstrophotoKit.read_request [1; 1] [4; 4] = Some (1, 4).
Proof. reflexivity. Qed.

(** On the engine, the two wrappers then return the same pixels. *)
Lemma read_wrappers_agree (m : data_model) (naxes : list Z) fptr dt nv s st :
  (1 <= length naxes <= 3)%nat ->
  is_long m (list_prod naxes) ->
  CCFITSIO.fits_read_img_wrapper Engine.fits_read_pix m fptr dt
    (Z.of_nat (length naxes)) (replicate (length naxes) 1) naxes nv s st
  = CAstrophotoKit.fits_read_img_wrapper Engine.fits_read_img fptr dt
      [1] [list_prod naxes] nv s st.
Proof.
  intros Hn Hprod.
  unfold CCFITSIO.fits_read_img_wrapper, CAstrophotoKit.fits_read_img_wrapper.
  rewrite ccfitsio_full_read_request by (lia || done). simpl.
  unfold Engine.fits_read_pix, Engine.fits_read_img.
  destruct (st !! fptr ≫= Engine.current); [|reflexivity].
  rewrite linear_offset_ones. reflexivity.
Qed.

(** *** Engine lemmas *)

Lemma movabs_out_of_range (st : state) fptr f index status :
  st !! fptr = Some f ->
  index < 1 \/ hdu_count f < index ->
  fits_movabs_hdu fptr index status st
  = (MovabsResult BAD_HDU_NUM 0 BAD_HDU_NUM, st).
Proof.
  intros Hf Hi. unfold fits_movabs_hdu, hdu_at, hdu_count in *. rewrite Hf.
  case_decide; [|reflexivity].
  rewrite lookup_ge_None_2 by lia. reflexivity.
Qed.

Lemma movabs_in_range (st : state) fptr f index status :
  st !! fptr = Some f ->
  1 <= index <= hdu_count f ->
  exists h, hdu_at f index = Some h
    /\ fits_movabs_hdu fptr index status st
       = (MovabsResult 0 (hdu_type h) 0, <[fptr := mkFits (hdus f) index]> st).
Proof.
  intros Hf Hi. unfold fits_movabs_hdu, hdu_at, hdu_count in *. rewrite Hf.
  destruct (lookup_lt_is_Some_2 (hdus f) (Z.to_nat (index - 1))) as [h Hh];
    [lia|].
  exists h. rewrite decide_True, Hh by lia. split; reflexivity.
Qed.

Lemma current_after_seek (st : state) fptr f index h :
  st !! fptr = Some f ->
  hdu_at f index = Some h ->
  <[fptr := mkFits (hdus f) index]> st !! fptr ≫= current = Some h.
Proof.
  intros Hf Hh.
  rewrite list_lookup_insert_eq by (eapply lookup_lt_Some; exact Hf).
  exact Hh.
Qed.

Lemma read_keyn_in_range (st : state) fptr h nkey status :
  st !! fptr ≫= current = Some h ->
  1 <= nkey <= Z.of_nat (length (hdu_keys h)) ->
  exists k, hdu_keys h !! Z.to_nat (nkey - 1) = Some k
    /\ fits_read_keyn fptr nkey status st
       = (KeynResult 0 (hk_name k) (hk_value k) (hk_comment k) 0, st).
Proof.
  intros Hh Hn. unfold fits_read_keyn. rewrite Hh.
  destruct (lookup_lt_is_Some_2 (hdu_keys h) (Z.to_nat (nkey - 1))) as [k Hk];
    [lia|].
  exists k. split; [exact Hk|].
  rewrite decide_True, Hk by lia. reflexivity.
Qed.

Lemma calls_read_only {St R : Type} (op : St -> R * St) (st : St) (r : R) n :
  op st = (r, st) -> calls n op st = (replicate n r, st).
Proof.
  intros Hop. induction n as [|n IH]; simpl; [reflexivity|].
  rewrite Hop, IH. reflexivity.
Qed.


(** *** Forwarded calls *)

(** C4, as stated, fails: the layer keeps no closed flag.  Two closes of
    the handle 7 reach the engine as two close requests for 7; the
    second one changes the engine's state, whereas a no-op would leave
    it as the first close left it. *)
Lemma C4_counterexample :
  let close := CCFITSIO.fits_close_file_wrapper CloseLog.fits_close_file in
  let close' :=
    CAstrophotoKit.fits_close_file_wrapper CloseLog.fits_close_file in
  (close 7%nat 0 []).2 = [7%nat]
  /\ (close 7%nat 0 (close 7%nat 0 []).2).2 = [7%nat; 7%nat]
  /\ (close' 7%nat 0 (close' 7%nat 0 []).2).2 <> (close' 7%nat 0 []).2.
Proof. repeat split. discriminate. Qed.

(** C4 (amended).  Open and close are forwarded to the engine: each
    returns what the engine's primitive returns and leaves the engine in
    the state the primitive leaves it in, so open followed by close
    succeeds exactly when the engine's open and close do.  The layer
    keeps no closed flag: [n] closes in a row of a handle are the
    engine's [n] closes in a row, and the engine receives [n] requests
    to close that handle. *)
Theorem C4_close_is_forwarded {fitsfile St : Type}
    (fits_open_file : string -> Z -> Z -> St -> open_result fitsfile * St)
    (fits_close_file : fitsfile -> Z -> St -> status_result * St)
    (filename : string) (mode status : Z) (fptr : fitsfile) (st : St)
    (n : nat) (h : nat) (log : list nat) :
  CCFITSIO.fits_open_file_wrapper fits_open_file filename mode status st
    = fits_open_file filename mode status st
  /\ CAstrophotoKit.fits_open_file_wrapper fits_open_file filename mode
       status st
     = fits_open_file filename mode status st
  /\ calls n (CCFITSIO.fits_close_file_wrapper fits_close_file fptr status) st
     = calls n (fits_close_file fptr status) st
  /\ calls n (CAstrophotoKit.fits_close_file_wrapper fits_close_file fptr
                status) st
     = calls n (fits_close_file fptr status) st
  /\ (calls n (CCFITSIO.fits_close_file_wrapper CloseLog.fits_close_file h
                 status) log).2
     = log ++ replicate n h
  /\ (calls n (CAstrophotoKit.fits_close_file_wrapper CloseLog.fits_close_file
                 h status) log).2
     = log ++ replicate n h.
Proof.
  assert (forall l, (calls n (CloseLog.fits_close_file h status) l).2
                    = l ++ replicate n h) as Hlog.
  { induction n as [|k IH]; intros l; simpl.
    - rewrite app_nil_r. reflexivity.
    - specialize (IH (l ++ [h])).
      destruct (calls k (CloseLog.fits_close_file h status) (l ++ [h]))
        as [rs l'].
      simpl in *. rewrite IH, <- app_assoc. reflexivity. }
  repeat split; try reflexivity; apply Hlog.
Qed.



(** The scenario of the spec without a null value: 16 elements, flag 0. *)
Example read_4x4_without_null :
  CCFITSIO.fits_read_img_wrapper fits_read_pix LP64 0%nat 21 2
    [1; 1] [4; 4] None 0 Samples.two_hdus
  = Some (ReadResult 0 (hdu_pixels Samples.image_4x4) 0 0, Samples.two_hdus).
Proof. reflexivity. Qed.

(** C6.  On the engine, for an open handle whose file has
    [hdu_count] HDUs, as both HDU-count wrappers report: a seek through
    either wrapper to an index below 1 or above the HDU count fails
    with the status of [InvalidHDUIndex] and leaves the engine's state,
    the cursor with it, as it was; a seek to an index within
    [1, hduCount] succeeds, reports the type of that HDU and moves the
    cursor to it, and the header-space wrappers and the image-parameter
    wrappers of both files then answer for that HDU: CCFITSIO's leaves
    the lengths in the caller's array as the engine's [long] cells
    fall into it, CAstrophotoKit's in the first three cells. *)
Theorem C6_seek (m : data_model) (st : state) (fptr : fitsfile) (f : fits)
    (index status : Z) :
  st !! fptr = Some f ->
  let seek :=
    CCFITSIO.fits_movabs_hdu_wrapper fits_movabs_hdu fptr index status st in
  CAstrophotoKit.fits_movabs_hdu_wrapper fits_movabs_hdu fptr index status st
    = seek
  /\ (forall s,
        CCFITSIO.fits_get_num_hdus_wrapper fits_get_num_hdus fptr s st
          = (NumHdusResult 0 (hdu_count f) 0, st)
        /\ CAstrophotoKit.fits_get_num_hdus_wrapper fits_get_num_hdus fptr s st
           = (NumHdusResult 0 (hdu_count f) 0, st))
  /\ (index < 1 \/ hdu_count f < index ->
        seek = (MovabsResult BAD_HDU_NUM 0 BAD_HDU_NUM, st)
        /\ kind_of_status (mv_status seek.1) = InvalidHDUIndex)
  /\ (1 <= index <= hdu_count f ->
        exists h, hdu_at f index = Some h
          /\ seek.1 = MovabsResult 0 (hdu_type h) 0
          /\ seek.2 !! fptr = Some (mkFits (hdus f) index)
          /\ (forall s,
                CCFITSIO.fits_get_hdrspace_wrapper fits_get_hdrspace fptr s
                  seek.2
                = (HdrspaceResult 0 (Z.of_nat (length (hdu_keys h)))
                     (hdu_more h) 0, seek.2)
                /\ CAstrophotoKit.fits_get_hdrspace_wrapper fits_get_hdrspace
                     fptr s seek.2
                   = (HdrspaceResult 0 (Z.of_nat (length (hdu_keys h)))
                        (hdu_more h) 0, seek.2))
          /\ (forall (maxdim s : Z) (naxes : list cval),
                let r :=
                  if decide (hdu_type h = IMAGE_HDU)
                  then ImgParamResult 0 (hdu_bitpix h)
                         (Z.of_nat (length (hdu_naxes h)))
                         (take (Z.to_nat maxdim) (hdu_naxes h)) 0
                  else ImgParamResult NOT_IMAGE 0 0 [] NOT_IMAGE in
                ((length (ip_written r)
                  <= match m with
                     | LP64 => length naxes
                     | LLP64 => 2 * length naxes
                     end)%nat ->
                 CCFITSIO.fits_get_img_param_wrapper fits_get_img_param m
                   fptr maxdim s naxes seek.2
                 = Some (ImgParamOut (ip_ret r) (ip_bitpix r) (ip_naxis r)
                           (match m with
                            | LP64 =>
                                (Vint <$> ip_written r)
                                  ++ drop (length (ip_written r)) naxes
                            | LLP64 =>
                                join_cells
                                  ((Vint <$> ip_written r)
                                     ++ drop (length (ip_written r))
                                          (naxes ≫= split_cell))
                            end)
                           (ip_status r), seek.2))
                /\ (maxdim <= MAX_AXES -> (3 <= length naxes)%nat ->
                    CAstrophotoKit.fits_get_img_param_wrapper
                      fits_get_img_param fptr maxdim s naxes seek.2
                    = Some (ImgParamOut (ip_ret r) (ip_bitpix r) (ip_naxis r)
                              ((Vint <$> ip_written r)
                                 ++ replicate (3 - length (ip_written r)) Vundef
                                 ++ drop 3 naxes)
                              (ip_status r), seek.2)))).
Proof.
  intros Hf seek. split; [reflexivity|]. subst seek.
  unfold CCFITSIO.fits_movabs_hdu_wrapper. split; [|split].
  - intros s.
    unfold CCFITSIO.fits_get_num_hdus_wrapper,
      CAstrophotoKit.fits_get_num_hdus_wrapper, fits_get_num_hdus.
    rewrite Hf. split; reflexivity.
  - intros Hi. rewrite (movabs_out_of_range st fptr f) by done.
    split; reflexivity.
  - intros Hi.
    destruct (movabs_in_range st fptr f index status Hf Hi) as (h & Hh & ->).
    exists h. simpl.
    pose proof (current_after_seek st fptr f index h Hf Hh) as Hcur.
    split; [exact Hh|]. split; [reflexivity|]. split.
    { apply list_lookup_insert_eq. eapply lookup_lt_Some; exact Hf. }
    split.
    + intros s.
      unfold CCFITSIO.fits_get_hdrspace_wrapper,
        CAstrophotoKit.fits_get_hdrspace_wrapper, fits_get_hdrspace.
      rewrite Hcur. split; reflexivity.
    + intros maxdim s naxes.
      set (r := if decide (hdu_type h = IMAGE_HDU)
                then ImgParamResult 0 (hdu_bitpix h)
                       (Z.of_nat (length (hdu_naxes h)))
                       (take (Z.to_nat maxdim) (hdu_naxes h)) 0
                else ImgParamResult NOT_IMAGE 0 0 [] NOT_IMAGE).
      assert (fits_get_img_param fptr maxdim s
                (<[fptr := mkFits (hdus f) index]> st)
              = (r, <[fptr := mkFits (hdus f) index]> st)) as Hr.
      { unfold fits_get_img_param. rewrite Hcur. subst r.
        case_decide; reflexivity. }
      split.
      * intros Hcap. unfold CCFITSIO.fits_get_img_param_wrapper.
        rewrite Hr, store_longs_eq by exact Hcap. reflexivity.
      * intros Hmax Hn. unfold MAX_AXES in Hmax.
        assert (length (ip_written r) <= 3)%nat as Hw.
        { subst r. case_decide; simpl; [rewrite length_take|]; lia. }
        pose proof (astro_img_param_eq fits_get_img_param fptr maxdim s
                      naxes (<[fptr := mkFits (hdus f) index]> st)) as Ha.
        rewrite Hr in Ha. apply Ha; [exact Hw | exact Hn].
Qed.

Lemma C6_seek_witness :
  Samples.two_hdus !! 0%nat = Some (mkFits [Samples.image_4x4; Samples.table_hdu] 1)
  /\ CCFITSIO.fits_movabs_hdu_wrapper fits_movabs_hdu 0%nat 3 0
       Samples.two_hdus
     = (MovabsResult BAD_HDU_NUM 0 BAD_HDU_NUM, Samples.two_hdus)
  /\ kind_of_status BAD_HDU_NUM = InvalidHDUIndex.
Proof.
  split; [reflexivity|].
  destruct (C6_seek LP64 Samples.two_hdus 0%nat
              (mkFits [Samples.image_4x4; Samples.table_hdu] 1) 3 0 eq_refl)
    as (_ & _ & H & _).
  apply H. right. unfold hdu_count. simpl. lia.
Defined.

(** Seeking to the table extension of the sample file. *)
Example seek_to_table :
  let seek :=
    CAstrophotoKit.fits_movabs_hdu_wrapper fits_movabs_hdu 0%nat 2 0
      Samples.two_hdus in
  seek.1 = MovabsResult 0 2 0
  /\ CAstrophotoKit.fits_get_hdrspace_wrapper fits_get_hdrspace 0%nat 0 seek.2
     = (HdrspaceResult 0 2 34 0, seek.2)
  /\ CCFITSIO.fits_get_img_param_wrapper fits_get_img_param LP64 0%nat 3 0
       [Vint 4; Vint 4; Vint 1] seek.2
     = Some (ImgParamOut NOT_IMAGE 0 0 [Vint 4; Vint 4; Vint 1] NOT_IMAGE,
             seek.2).
Proof. repeat split. Qed.

(** Where [long] is 32 bits wide, the lengths 2, 3 and 5 of the sample
    image of four axes reach a caller's zeroed [LONGLONG] array two to a
    cell. *)
Example ccfitsio_img_param_32bit_long :
  CCFITSIO.fits_get_img_param_wrapper fits_get_img_param LLP64 0%nat 3 0
    [Vint 0; Vint 0; Vint 0] Samples.four_axes
  = Some (ImgParamOut 0 16 4 [Vint 12884901890; Vint 5; Vint 0] 0,
          Samples.four_axes)
  /\ CCFITSIO.fits_get_img_param_wrapper fits_get_img_param LP64 0%nat 3 0
       [Vint 0; Vint 0; Vint 0] Samples.four_axes
     = Some (ImgParamOut 0 16 4 [Vint 2; Vint 3; Vint 5] 0,
             Samples.four_axes).
Proof. split; reflexivity. Qed.

(** C8.  On the engine, reading the key at an ordinal within
    [1, existingKeyCount] any number of times in a row, through either
    wrapper, returns the same name, value and comment every time and
    leaves the engine's state as it was. *)
Theorem C8_read_key_idempotent (st : state) (fptr : fitsfile) (h : HDU)
    (nkey status : Z) (n : nat) :
  st !! fptr ≫= current = Some h ->
  1 <= nkey <= Z.of_nat (length (hdu_keys h)) ->
  exists k, hdu_keys h !! Z.to_nat (nkey - 1) = Some k
    /\ calls n (CCFITSIO.fits_read_keyn_wrapper fits_read_keyn fptr nkey
                  status) st
       = (replicate n (KeynResult 0 (hk_name k) (hk_value k) (hk_comment k) 0),
          st)
    /\ calls n (CAstrophotoKit.fits_read_keyn_wrapper fits_read_keyn fptr nkey
                  status) st
       = (replicate n (KeynResult 0 (hk_name k) (hk_value k) (hk_comment k) 0),
          st).
Proof.
  intros Hh Hn.
  destruct (read_keyn_in_range st fptr h nkey status Hh Hn) as (k & Hk & Hr).
  exists k. split; [exact Hk|].
  split; apply calls_read_only; exact Hr.
Qed.

Lemma C8_read_key_idempotent_witness :
  (1 <= 2 <= Z.of_nat (length (hdu_keys Samples.image_4x4)))
  /\ calls 3 (CCFITSIO.fits_read_keyn_wrapper fits_read_keyn 0%nat 2 0)
       Samples.two_hdus
     = (replicate 3 (KeynResult 0 "BITPIX" "16" "bits per pixel" 0),
        Samples.two_hdus).
Proof.
  split; [simpl; lia|].
  destruct (C8_read_key_idempotent Samples.two_hdus 0%nat Samples.image_4x4
              2 0 3 eq_refl) as (k & Hk & H & _); [simpl; lia|].
  simpl in Hk. injection Hk as <-. exact H.
Defined.

(** * Further properties of the wrappers *)

(** ** The pixel-read wrapper of CCFITSIO *)

(** A loop that has failed stays failed. *)
Lemma for_loop_None_mono {S} (body : nat -> S -> option S) s (k n : nat) :
  (k <= n)%nat -> for_loop k body s = None -> for_loop n body s = None.
Proof.
  intros Hkn Hk. induction n as [|n IH].
  - replace k with 0%nat in Hk by lia. exact Hk.
  - destruct (decide (k = Datatypes.S n)) as [->|Hne]; [exact Hk|].
    rewrite for_loop_S, IH by lia. reflexivity.
Qed.

(** The copy loop stops at the first cell that a caller's array lacks. *)
Lemma copy_loop_short m firstPixel numElements (n : nat) :
  (n <= 3)%nat ->
  (length firstPixel < n)%nat \/ (length numElements < n)%nat ->
  for_loop n (CCFITSIO.copy_dim m firstPixel numElements)
    ([1; 1; 1], [1; 1; 1]) = None.
Proof.
  intros Hn Hshort.
  set (k := (length firstPixel `min` length numElements)%nat).
  apply (for_loop_None_mono _ _ (Datatypes.S k)); [lia|].
  rewrite for_loop_S, copy_loop by (simpl; lia). simpl.
  unfold CCFITSIO.copy_dim.
  destruct (decide (length firstPixel <= length numElements)%nat).
  - rewrite (lookup_ge_None_2 firstPixel k) by lia. reflexivity.
  - rewrite (lookup_ge_None_2 numElements k) by lia.
    destruct (firstPixel !! k); reflexivity.
Qed.

(** A defined request has read [min naxis 3] cells of each array. *)
Lemma read_request_some_lengths m naxis firstPixel numElements req :
  CCFITSIO.read_request m naxis firstPixel numElements = Some req ->
  (Z.to_nat (CCFITSIO.dimsToCopy naxis) <= length firstPixel)%nat
  /\ (Z.to_nat (CCFITSIO.dimsToCopy naxis) <= length numElements)%nat.
Proof.
  intros Hreq. pose proof (dimsToCopy_le naxis) as Hle.
  destruct (decide (Z.to_nat (CCFITSIO.dimsToCopy naxis)
                    <= length firstPixel)%nat) as [H1|H1];
    [destruct (decide (Z.to_nat (CCFITSIO.dimsToCopy naxis)
                       <= length numElements)%nat) as [H2|H2]; [done|]|];
    exfalso; unfold CCFITSIO.read_request in Hreq;
    rewrite copy_loop_short in Hreq by lia; discriminate.
Qed.

(** X1.  [fits_read_img_wrapper] of CCFITSIO reads the first
    [min naxis 3] cells of each array (none for [naxis <= 0]): the call
    is defined exactly when both arrays have that many cells. *)
Theorem X1_read_request_defined_iff (m : data_model) (naxis : Z)
    (firstPixel numElements : list Z) :
  is_Some (CCFITSIO.read_request m naxis firstPixel numElements)
  <-> (Z.to_nat (CCFITSIO.dimsToCopy naxis) <= length firstPixel)%nat
      /\ (Z.to_nat (CCFITSIO.dimsToCopy naxis) <= length numElements)%nat.
Proof.
  split.
  - intros [req Hreq]. exact (read_request_some_lengths _ _ _ _ _ Hreq).
  - intros [H1 H2]. rewrite read_request_eq by done. eexists; reflexivity.
Qed.

(** X2.  For an axis count of zero or below, nothing is copied: whatever
    the arrays hold, even nothing, the engine is asked for one element
    at the coordinates [1, 1, 1]. *)
Theorem X2_read_no_axes {fitsfile St pixel : Type}
    (fits_read_pix :
       fitsfile -> Z -> list Z -> Z -> option pixel -> Z -> St ->
       read_result pixel * St)
    (m : data_model) (fptr : fitsfile) (dataType naxis : Z)
    (firstPixel numElements : list Z) (nullValue : option pixel)
    (status : Z) (st : St) :
  naxis <= 0 ->
  CCFITSIO.fits_read_img_wrapper fits_read_pix m fptr dataType naxis
    firstPixel numElements nullValue status st
  = Some (fits_read_pix fptr dataType [1; 1; 1] 1 nullValue status st).
Proof.
  intros Hn.
  assert (Z.to_nat (CCFITSIO.dimsToCopy naxis) = 0%nat) as Hd
    by (rewrite dimsToCopy_small; lia).
  rewrite ccfitsio_read_img_eq by (rewrite Hd; lia).
  rewrite Hd, !take_0. simpl. rewrite cast_long_one. reflexivity.
Qed.

Lemma X2_read_no_axes_witness :
  -1 <= 0
  /\ CCFITSIO.fits_read_img_wrapper Engine.fits_read_pix LP64 0%nat 21 (-1)
       [] [] None 0 Samples.two_hdus
     = Some (Engine.fits_read_pix 0%nat 21 [1; 1; 1] 1 None 0
               Samples.two_hdus).
Proof.
  split; [lia|].
  apply (X2_read_no_axes Engine.fits_read_pix LP64 0%nat 21 (-1) [] []
           None 0 Samples.two_hdus). lia.
Defined.

(** X3.  Whatever it is given, the wrapper hands the engine exactly
    three coordinates, each of them a [long], and a count that is a
    [long]. *)
Theorem X3_request_is_three_longs (m : data_model) (naxis : Z)
    (firstPixel numElements fpixel : list Z) (total : Z) :
  CCFITSIO.read_request m naxis firstPixel numElements = Some (fpixel, total) ->
  length fpixel = 3%nat /\ Forall (is_long m) fpixel /\ is_long m total.
Proof.
  intros Hreq. pose proof (dimsToCopy_le naxis) as Hle.
  destruct (read_request_some_lengths _ _ _ _ _ Hreq) as [H1 H2].
  rewrite read_request_eq in Hreq by done. simplify_eq.
  split; [|split].
  - rewrite length_app, length_fmap, length_take, length_replicate. lia.
  - apply Forall_app. split.
    + apply Forall_fmap, Forall_true. intros x. apply cast_long_is_long.
    + apply Forall_replicate. unfold is_long, in_range.
      destruct m; simpl; lia.
  - apply cast_long_is_long.
Qed.

Lemma X3_request_is_three_longs_witness :
  CCFITSIO.read_request LLP64 1 [1] [4294967298] = Some ([1; 1; 1], 2)
  /\ length [1; 1; 1] = 3%nat
  /\ Forall (is_long LLP64) [1; 1; 1]
  /\ is_long LLP64 2.
Proof.
  split; [reflexivity|].
  apply (X3_request_is_three_longs LLP64 1 [1] [4294967298]). reflexivity.
Defined.

(** Lists that agree cell by cell modulo [2^w] narrow to the same list,
    and their products to the same [long]. *)
Lemma cast_long_map_congr m (l l' : list Z) :
  Forall2 (fun x y => x mod 2 ^ long_bits m = y mod 2 ^ long_bits m) l l' ->
  cast_long m <$> l = cast_long m <$> l'.
Proof.
  induction 1 as [|x y l l' Hxy _ IH]; [reflexivity|].
  rewrite !fmap_cons, IH, (cast_long_congr m x y Hxy). reflexivity.
Qed.

Lemma list_prod_congr m (l l' : list Z) :
  Forall2 (fun x y => x mod 2 ^ long_bits m = y mod 2 ^ long_bits m) l l' ->
  list_prod l mod 2 ^ long_bits m = list_prod l' mod 2 ^ long_bits m.
Proof.
  induction 1 as [|x y l l' Hxy _ IH]; [reflexivity|].
  simpl. rewrite Zmult_mod, Hxy, IH, <- Zmult_mod. reflexivity.
Qed.

(** X4.  The engine cannot tell two requests apart whose coordinates
    and counts agree modulo [2^w] on the cells that are read, [w] the
    width of [long]: they are narrowed to the same coordinates and the
    same count. *)
Theorem X4_request_modulo (m : data_model) (naxis : Z)
    (firstPixel numElements firstPixel' numElements' : list Z) :
  let n := Z.to_nat (CCFITSIO.dimsToCopy naxis) in
  (n <= length firstPixel)%nat ->
  (n <= length numElements)%nat ->
  Forall2 (fun x y => x mod 2 ^ long_bits m = y mod 2 ^ long_bits m)
    (take n firstPixel) (take n firstPixel') ->
  Forall2 (fun x y => x mod 2 ^ long_bits m = y mod 2 ^ long_bits m)
    (take n numElements) (take n numElements') ->
  CCFITSIO.read_request m naxis firstPixel' numElements'
  = CCFITSIO.read_request m naxis firstPixel numElements.
Proof.
  intros n H1 H2 Hfp Hne.
  assert (n <= length firstPixel')%nat.
  { apply Forall2_length in Hfp. rewrite !length_take in Hfp. lia. }
  assert (n <= length numElements')%nat.
  { apply Forall2_length in Hne. rewrite !length_take in Hne. lia. }
  rewrite !read_request_eq by done. fold n.
  rewrite (cast_long_map_congr m _ _ Hfp).
  rewrite (cast_long_congr m _ _ (list_prod_congr m _ _ Hne)).
  reflexivity.
Qed.

Lemma X4_request_modulo_witness :
  (Z.to_nat (CCFITSIO.dimsToCopy 1) <= 1)%nat
  /\ CCFITSIO.read_request LLP64 1 [4294967297] [4294967298]
     = CCFITSIO.read_request LLP64 1 [1] [2].
Proof.
  split; [vm_compute; lia|].
  apply (X4_request_modulo LLP64 1 [1] [2] [4294967297] [4294967298]).
  - vm_compute; lia.
  - vm_compute; lia.
  - repeat constructor.
  - repeat constructor.
Defined.

(** X5.  The count handed to the engine is the product of the counts
    that are read exactly when that product fits in a [long]. *)
Theorem X5_total_exact_iff (m : data_model) (naxis : Z)
    (firstPixel numElements fpixel : list Z) (total : Z) :
  CCFITSIO.read_request m naxis firstPixel numElements = Some (fpixel, total) ->
  total = list_prod (take (Z.to_nat (CCFITSIO.dimsToCopy naxis)) numElements)
  <-> is_long m
        (list_prod (take (Z.to_nat (CCFITSIO.dimsToCopy naxis)) numElements)).
Proof.
  intros Hreq.
  destruct (read_request_some_lengths _ _ _ _ _ Hreq) as [H1 H2].
  rewrite read_request_eq in Hreq by done. simplify_eq.
  split.
  - intros <-. apply cast_long_is_long.
  - apply cast_long_id.
Qed.

Lemma X5_total_exact_iff_witness :
  CCFITSIO.read_request LLP64 2 [1; 1] [65536; 65536] = Some ([1; 1; 1], 0)
  /\ (0 = list_prod [65536; 65536] <-> is_long LLP64 (list_prod [65536; 65536])).
Proof.
  split; [reflexivity|].
  apply (X5_total_exact_iff LLP64 2 [1; 1] [65536; 65536] [1; 1; 1] 0).
  reflexivity.
Defined.

Lemma list_prod_zero (l : list Z) : 0 ∈ l -> list_prod l = 0.
Proof.
  induction l as [|x l IH]; intros Hin; [inversion Hin|].
  simpl. apply elem_of_cons in Hin as [<-|Hin]; [reflexivity|].
  rewrite IH by done. lia.
Qed.

(** X6.  A count of zero on any axis that is read makes the request one
    for zero elements, whatever the other counts are. *)
Theorem X6_zero_count {fitsfile St pixel : Type}
    (fits_read_pix :
       fitsfile -> Z -> list Z -> Z -> option pixel -> Z -> St ->
       read_result pixel * St)
    (m : data_model) (fptr : fitsfile) (dataType naxis : Z)
    (firstPixel numElements : list Z) (nullValue : option pixel)
    (status : Z) (st : St) :
  let n := Z.to_nat (CCFITSIO.dimsToCopy naxis) in
  (n <= length firstPixel)%nat ->
  (n <= length numElements)%nat ->
  0 ∈ take n numElements ->
  CCFITSIO.fits_read_img_wrapper fits_read_pix m fptr dataType naxis
    firstPixel numElements nullValue status st
  = Some (fits_read_pix fptr dataType
            ((cast_long m <$> take n firstPixel) ++ replicate (3 - n) 1)
            0 nullValue status st).
Proof.
  intros n H1 H2 Hzero.
  rewrite ccfitsio_read_img_eq by done. fold n.
  rewrite list_prod_zero by done.
  replace (cast_long m 0) with 0 by (destruct m; reflexivity).
  reflexivity.
Qed.

Lemma X6_zero_count_witness :
  0 ∈ take (Z.to_nat (CCFITSIO.dimsToCopy 3)) [9223372036854775807; 0; 5]
  /\ CCFITSIO.fits_read_img_wrapper Engine.fits_read_pix LP64 0%nat 21 3
       [1; 1; 1] [9223372036854775807; 0; 5] None 0 Samples.two_hdus
     = Some (Engine.fits_read_pix 0%nat 21 [1; 1; 1] 0 None 0
               Samples.two_hdus).
Proof.
  assert (0 ∈ take (Z.to_nat (CCFITSIO.dimsToCopy 3))
                [9223372036854775807; 0; 5]) as Hin
    by (apply list_elem_of_In; simpl; tauto).
  split; [exact Hin|].
  apply (X6_zero_count Engine.fits_read_pix LP64 0%nat 21 3 [1; 1; 1]
           [9223372036854775807; 0; 5] None 0 Samples.two_hdus);
    [vm_compute; lia | vm_compute; lia | exact Hin].
Defined.

(** ** The two pixel-read wrappers on the same arrays *)

Lemma linear_offset_first (a p : Z) (naxes : list Z) (k : nat) :
  linear_offset (a :: naxes) (p :: replicate k 1) = p.
Proof. unfold linear_offset. simpl. rewrite offset0_ones. lia. Qed.

(** X7.  Handed the same per-axis arrays for one to three axes, with
    coordinates and product in the range of [long], CCFITSIO asks for
    the product of the counts from the coordinates and CAstrophotoKit
    for the first count from the first coordinate taken as a linear
    offset.  The two counts are the same exactly when the first count
    is zero or the other counts multiply to one, as they do for a
    single axis; the two starts are the same pixel when every
    coordinate after the first is 1. *)
Theorem X7_same_arrays (m : data_model) (p n : Z) (ps ns : list Z) :
  length ps = length ns ->
  (length ns <= 2)%nat ->
  Forall (is_long m) (p :: ps) ->
  is_long m (list_prod (n :: ns)) ->
  let pad := replicate (2 - length ns) 1 in
  CCFITSIO.read_request m (Z.of_nat (length (n :: ns))) (p :: ps) (n :: ns)
    = Some (p :: ps ++ pad, n * list_prod ns)
  /\ CAstrophotoKit.read_request (p :: ps) (n :: ns) = Some (p, n)
  /\ (n * list_prod ns = n <-> n = 0 \/ list_prod ns = 1)
  /\ (ns = [] -> n * list_prod ns = n)
  /\ (ps = replicate (length ps) 1 ->
      forall a naxes, linear_offset (a :: naxes) (p :: ps ++ pad) = p).
Proof.
  intros Hlen Hle Hfp Hprod pad.
  split; [|split; [reflexivity|split; [|split]]].
  - assert (Z.to_nat (CCFITSIO.dimsToCopy (Z.of_nat (length (n :: ns))))
            = length (n :: ns)) as Hd
      by (rewrite dimsToCopy_small; simpl; lia).
    rewrite read_request_eq by (rewrite Hd; simpl; lia).
    rewrite Hd. rewrite (firstn_all (n :: ns)).
    replace (length (n :: ns)) with (length (p :: ps)) by (simpl; lia).
    rewrite firstn_all, cast_long_map_id, cast_long_id by done.
    simpl. subst pad. rewrite Hlen. reflexivity.
  - nia.
  - intros ->. simpl. lia.
  - intros Hones a naxes. subst pad. rewrite Hones, <- replicate_add.
    apply linear_offset_first.
Qed.

Lemma X7_same_arrays_witness :
  (length [1] <= 2)%nat
  /\ CCFITSIO.read_request LP64 2 [1; 1] [4; 4] = Some ([1; 1; 1], 16)
  /\ CAstrophotoKit.read_request [1; 1] [4; 4] = Some (1, 4).
Proof.
  split; [simpl; lia|].
  destruct (X7_same_arrays LP64 1 4 [1] [4]) as (H1 & H2 & _).
  - reflexivity.
  - simpl; lia.
  - repeat constructor; solve_range.
  - solve_range.
  - split; [exact H1 | exact H2].
Defined.

(** ** The image-parameter wrapper of CAstrophotoKit *)

Lemma astro_img_param_short {fitsfile St : Type}
    (fits_get_img_param : fitsfile -> Z -> Z -> St -> img_param_result * St)
    fptr maxdim status naxes st :
  (length naxes < 3)%nat ->
  CAstrophotoKit.fits_get_img_param_wrapper fits_get_img_param fptr maxdim
    status naxes st = None.
Proof.
  intros Hn. unfold CAstrophotoKit.fits_get_img_param_wrapper.
  destruct (fits_get_img_param fptr maxdim status st) as [r st'].
  destruct (store_from 0 (ip_written r) CAstrophotoKit.naxes_long_decl);
    simpl; [|reflexivity].
  rewrite copy_axes_short by done. reflexivity.
Qed.

(** X8.  [fits_get_img_param_wrapper] of CAstrophotoKit is defined
    exactly when the engine stored at most three lengths and the
    caller's array has at least three cells, whatever the axis count
    and whatever the engine returned. *)
Theorem X8_img_param_defined_iff {fitsfile St : Type}
    (fits_get_img_param : fitsfile -> Z -> Z -> St -> img_param_result * St)
    (fptr : fitsfile) (maxdim status : Z) (naxes : list cval) (st : St) :
  is_Some (CAstrophotoKit.fits_get_img_param_wrapper fits_get_img_param fptr
             maxdim status naxes st)
  <-> (length (ip_written (fits_get_img_param fptr maxdim status st).1)
       <= 3)%nat
      /\ (3 <= length naxes)%nat.
Proof.
  split.
  - intros [out Hout].
    destruct (decide (length (ip_written
                (fits_get_img_param fptr maxdim status st).1) <= 3)%nat)
      as [Hw|Hw].
    + destruct (decide (3 <= length naxes)%nat) as [Hn|Hn]; [done|].
      rewrite astro_img_param_short in Hout by lia. discriminate.
    + rewrite astro_img_param_overflow in Hout by lia. discriminate.
  - intros [Hw Hn]. rewrite astro_img_param_eq by done.
    eexists; reflexivity.
Qed.

(** X9.  When the call is defined, the wrapper returns the engine's
    return value, bit depth, axis count (not cut to three) and status,
    leaves the engine as the engine left itself, keeps the length of the
    caller's array and every cell of it from the fourth on, and puts
    each length the engine stored into the cell of the same index. *)
Theorem X9_img_param_frame {fitsfile St : Type}
    (fits_get_img_param : fitsfile -> Z -> Z -> St -> img_param_result * St)
    (fptr : fitsfile) (maxdim status : Z) (naxes : list cval) (st : St)
    (out : img_param_out) (st' : St) :
  CAstrophotoKit.fits_get_img_param_wrapper fits_get_img_param fptr maxdim
    status naxes st = Some (out, st') ->
  let r := (fits_get_img_param fptr maxdim status st).1 in
  st' = (fits_get_img_param fptr maxdim status st).2
  /\ ipo_ret out = ip_ret r
  /\ ipo_bitpix out = ip_bitpix r
  /\ ipo_naxis out = ip_naxis r
  /\ ipo_status out = ip_status r
  /\ length (ipo_naxes out) = length naxes
  /\ (forall i : nat, (3 <= i)%nat -> ipo_naxes out !! i = naxes !! i)
  /\ (forall (i : nat) (v : Z),
        ip_written r !! i = Some v -> ipo_naxes out !! i = Some (Vint v)).
Proof.
  intros Hcall r.
  assert ((length (ip_written r) <= 3)%nat /\ (3 <= length naxes)%nat)
    as [Hw Hn].
  { destruct (decide (length (ip_written r) <= 3)%nat) as [Hw|Hw].
    - destruct (decide (3 <= length naxes)%nat) as [Hn|Hn]; [done|].
      rewrite astro_img_param_short in Hcall by lia. discriminate.
    - rewrite astro_img_param_overflow in Hcall by (fold r; lia).
      discriminate. }
  rewrite astro_img_param_eq in Hcall by done. fold r in Hcall.
  simplify_eq. simpl.
  repeat split; try reflexivity.
  - rewrite !length_app, length_fmap, length_replicate, length_drop. lia.
  - intros i Hi.
    rewrite lookup_app_r by (rewrite length_fmap; lia).
    rewrite length_fmap, lookup_app_r by (rewrite length_replicate; lia).
    rewrite length_replicate, lookup_drop. f_equal. lia.
  - intros i v Hv. rewrite lookup_app_l
      by (rewrite length_fmap; eapply lookup_lt_Some; exact Hv).
    rewrite list_lookup_fmap, Hv. reflexivity.
Qed.

Lemma X9_img_param_frame_witness :
  CAstrophotoKit.fits_get_img_param_wrapper Engine.fits_get_img_param
    0%nat 3 0 [Vint 9; Vint 9; Vint 9; Vint 9] Samples.four_axes
  = Some (ImgParamOut 0 16 4 [Vint 2; Vint 3; Vint 5; Vint 9] 0,
          Samples.four_axes)
  /\ ipo_naxis (ImgParamOut 0 16 4 [Vint 2; Vint 3; Vint 5; Vint 9] 0) = 4
  /\ [Vint 2; Vint 3; Vint 5; Vint 9] !! 3%nat = Some (Vint 9).
Proof.
  split; [reflexivity|].
  destruct (X9_img_param_frame Engine.fits_get_img_param 0%nat 3 0
              [Vint 9; Vint 9; Vint 9; Vint 9] Samples.four_axes
              (ImgParamOut 0 16 4 [Vint 2; Vint 3; Vint 5; Vint 9] 0)
              Samples.four_axes eq_refl)
    as (_ & _ & _ & Hnaxis & _ & _ & Hframe & _).
  split; [exact Hnaxis|]. exact (Hframe 3%nat (le_n 3)).
Defined.

(** X10.  The wrapper copies without looking at what the engine
    returned: when the engine stored nothing, as on a failure, the
    first three cells of the caller's array are overwritten with the
    uninitialised content of the local buffer, and what they held is
    lost. *)
Theorem X10_img_param_nothing_stored {fitsfile St : Type}
    (fits_get_img_param : fitsfile -> Z -> Z -> St -> img_param_result * St)
    (fptr : fitsfile) (maxdim status : Z) (naxes : list cval) (st : St) :
  let r := (fits_get_img_param fptr maxdim status st).1 in
  ip_written r = [] ->
  (3 <= length naxes)%nat ->
  CAstrophotoKit.fits_get_img_param_wrapper fits_get_img_param fptr maxdim
    status naxes st
  = Some (ImgParamOut (ip_ret r) (ip_bitpix r) (ip_naxis r)
            ([Vundef; Vundef; Vundef] ++ drop 3 naxes) (ip_status r),
          (fits_get_img_param fptr maxdim status st).2).
Proof.
  intros r Hw Hn. rewrite astro_img_param_eq by (fold r; rewrite ?Hw; simpl; lia).
  fold r. rewrite Hw. reflexivity.
Qed.

Lemma X10_img_param_nothing_stored_witness :
  ip_written (Engine.fits_get_img_param 0%nat 3 0
                [mkFits [Samples.image_4x4; Samples.table_hdu] 2]).1 = []
  /\ CAstrophotoKit.fits_get_img_param_wrapper Engine.fits_get_img_param
       0%nat 3 0 [Vint 4; Vint 4; Vint 1]
       [mkFits [Samples.image_4x4; Samples.table_hdu] 2]
     = Some (ImgParamOut NOT_IMAGE 0 0 [Vundef; Vundef; Vundef] NOT_IMAGE,
             [mkFits [Samples.image_4x4; Samples.table_hdu] 2]).
Proof.
  split; [reflexivity|].
  apply (X10_img_param_nothing_stored Engine.fits_get_img_param 0%nat 3 0
           [Vint 4; Vint 4; Vint 1]
           [mkFits [Samples.image_4x4; Samples.table_hdu] 2]);
    [reflexivity | simpl; lia].
Defined.
